(** * Crypto KI App: indicators, signal, backtest, risk tool and trade log

    A shallow embedding of [app.py].  The script is a single linear
    Streamlit page; the parts modelled here are the functions
    [load_trades], [save_trades], [add_indicators], [ai_signal] and the
    three inline blocks "Backtest SMA Strategy", "StopLoss / TakeProfit"
    and "Trade speichern".

    Numbers.  The script computes on IEEE doubles ([numpy.float64] inside
    pandas, Python [float] outside).  There are two embeddings of its
    arithmetic.

    The first keeps the special values the script's behaviour depends on
    (NaN and the two infinities) and represents every finite value by an
    exact rational: rounding, overflow and underflow are abstracted away,
    and the two signed zeros are identified.  It carries the store, the
    signal engine, the risk tool and the trade log, and the properties
    of the indicators and of the backtest that are about control flow,
    exceptions, NaN positions and lengths, or that are stated for exact
    arithmetic.

    The second, the module [Binary64], embeds [add_indicators] and the
    backtest on binary64 numbers, with the rounded operations and the
    pandas kernels as they run.  It carries the properties that the
    rounding decides. *)

From Stdlib Require Import QArith Qcanon Qround Lqa Qpower.
From Stdlib Require Import Floats.
From stdpp Require Import gmap strings list fin_maps.
From Ceres Require Import Ceres.

Local Open Scope Qc_scope.

(** ** Exact rationals *)

Definition QcZ (z : Z) : Qc := Q2Qc (inject_Z z).
Definition Qcltb (a b : Qc) : bool := bool_decide (a < b).
Definition Qceqb (a b : Qc) : bool := bool_decide (a = b).

(** ** numpy.float64 *)

Module Float64.

(** [Inf true] is minus infinity, [Inf false] plus infinity. *)
Inductive float64 : Type :=
| NaN
| Inf (neg : bool)
| Fin (q : Qc).

Definition is_nan (x : float64) : bool :=
  match x with NaN => true | _ => false end.

Definition neg (x : float64) : float64 :=
  match x with
  | NaN => NaN
  | Inf s => Inf (negb s)
  | Fin q => Fin (- q)
  end.

Definition add (x y : float64) : float64 :=
  match x, y with
  | NaN, _ | _, NaN => NaN
  | Inf s, Inf t => if Bool.eqb s t then Inf s else NaN
  | Inf s, Fin _ | Fin _, Inf s => Inf s
  | Fin a, Fin b => Fin (a + b)
  end.

Definition sub (x y : float64) : float64 := add x (neg y).

Definition mul (x y : float64) : float64 :=
  match x, y with
  | NaN, _ | _, NaN => NaN
  | Inf s, Inf t => Inf (xorb s t)
  | Inf s, Fin b | Fin b, Inf s =>
      if Qceqb b 0 then NaN else Inf (xorb s (Qcltb b 0))
  | Fin a, Fin b => Fin (a * b)
  end.

(** Division never raises: a finite non-zero value over zero is an
    infinity, zero over zero is NaN.  With the signed zeros identified
    the sign of [a / 0] is the sign of [a]. *)
Definition div (x y : float64) : float64 :=
  match x, y with
  | NaN, _ | _, NaN => NaN
  | Inf _, Inf _ => NaN
  | Inf s, Fin b => Inf (xorb s (Qcltb b 0))
  | Fin _, Inf _ => Fin 0
  | Fin a, Fin b =>
      if Qceqb b 0
      then (if Qceqb a 0 then NaN else Inf (Qcltb a 0))
      else Fin (a / b)
  end.

(** Comparisons: every comparison with NaN is false. *)
Definition lt (x y : float64) : bool :=
  match x, y with
  | NaN, _ | _, NaN => false
  | Inf s, Inf t => s && negb t
  | Inf s, Fin _ => s
  | Fin _, Inf t => negb t
  | Fin a, Fin b => Qcltb a b
  end.

Definition gt (x y : float64) : bool := lt y x.

Definition eqb (x y : float64) : bool :=
  match x, y with
  | Inf s, Inf t => Bool.eqb s t
  | Fin a, Fin b => Qceqb a b
  | _, _ => false
  end.

Definition of_Z (z : Z) : float64 := Fin (QcZ z).

End Float64.
Export Float64.

Global Instance float64_inhabited : Inhabited float64 := populate NaN.

(** ** Python exceptions *)

Inductive exn : Type :=
| KeyError (key : string)
| IndexError
| ZeroDivisionError
| OSError
| JSONDecodeError.

Inductive result (A : Type) : Type :=
| Ok (a : A)
| Raise (e : exn).
Arguments Ok {A} a.
Arguments Raise {A} e.

Global Instance result_ret : MRet result := λ A a, Ok a.
Global Instance result_bind : MBind result := λ A B f m,
  match m with
  | Ok a => f a
  | Raise e => Raise e
  end.

(** A [for] loop whose body may raise. *)
Fixpoint for_each {A S : Type} (body : S → A → result S) (xs : list A) (s : S)
  : result S :=
  match xs with
  | [] => Ok s
  | x :: xs' => s' ← body s x; for_each body xs' s'
  end.

(** ** Python [round]

    [round(x, 2)]: to the nearest hundredth, ties to even; NaN and the
    infinities are returned as they are. *)
Definition round_half_even (q : Qc) : Z :=
  let f := Qfloor q in
  let r := q - QcZ f in
  let half := QcZ 1 / QcZ 2 in
  if Qcltb r half then f
  else if Qcltb half r then (f + 1)%Z
  else if Z.even f then f else (f + 1)%Z.

Definition round2 (q : Qc) : Qc :=
  QcZ (round_half_even (q * QcZ 100)) / QcZ 100.

Definition round2_float (x : float64) : float64 :=
  match x with
  | Fin q => Fin (round2 q)
  | _ => x
  end.

(** ** pandas Series *)

Abbreviation Series := (list float64).

Module Pandas.

(** [s.iloc[i]] for [i >= 0] and [s.iloc[-1]]. *)
Definition iloc (s : Series) (i : nat) : result float64 :=
  match s !! i with
  | Some x => Ok x
  | None => Raise IndexError
  end.

Definition iloc_last (s : Series) : result float64 :=
  match last s with
  | Some x => Ok x
  | None => Raise IndexError
  end.

(** [s.diff()]: the first element has no predecessor. *)
Definition diff (s : Series) : Series :=
  match s with
  | [] => []
  | _ :: tl => NaN :: zip_with sub tl s
  end.

(** [s.clip(lower=lo)] and [s.clip(upper=hi)]; NaN stays NaN. *)
Definition clip_lower (lo : float64) (s : Series) : Series :=
  (λ x, if lt x lo then lo else x) <$> s.
Definition clip_upper (hi : float64) (s : Series) : Series :=
  (λ x, if gt x hi then hi else x) <$> s.

(** Unary minus, element-wise division, and arithmetic with a scalar on
    the left. *)
Definition sneg (s : Series) : Series := neg <$> s.
Definition sdiv (s t : Series) : Series := zip_with div s t.
Definition radd (c : float64) (s : Series) : Series := add c <$> s.
Definition rsub (c : float64) (s : Series) : Series := sub c <$> s.
Definition rdiv (c : float64) (s : Series) : Series := div c <$> s.

(** *** [s.rolling(w).mean()]

    The sliding-window kernel of pandas ([roll_mean] with the fixed
    window bounds [start i = max 0 (i + 1 - w)], [end i = i + 1] and
    [min_periods = w]): a running count and sum of the non-NaN
    observations in the window, updated by removing the values that
    leave and adding the value that enters.  The Kahan compensation
    terms and the sign clamps of the kernel are identities in exact
    arithmetic and are left out. *)
Record roll_state : Type := RollState { nobs : nat; sum_x : float64 }.

Definition roll_init : roll_state := RollState 0 (Fin 0).

Definition add_mean (st : roll_state) (v : float64) : roll_state :=
  if is_nan v then st
  else RollState (S (nobs st)) (add (sum_x st) v).

Definition remove_mean (st : roll_state) (v : float64) : roll_state :=
  if is_nan v then st
  else RollState (pred (nobs st)) (sub (sum_x st) v).

Definition calc_mean (minp : nat) (st : roll_state) : float64 :=
  if (minp <=? nobs st)%nat && (0 <? nobs st)%nat
  then div (sum_x st) (of_Z (Z.of_nat (nobs st)))
  else NaN.

Definition win_start (w i : nat) : nat := (i + 1 - w)%nat.
Definition win_end (i : nat) : nat := (i + 1)%nat.

(** The values at positions [lo .. hi - 1]. *)
Definition slice (values : Series) (lo hi : nat) : Series :=
  drop lo (take hi values).

Definition roll_step (values : Series) (w : nat) (st : roll_state) (i : nat)
  : roll_state :=
  let s := win_start w i in
  let e := win_end i in
  if (i =? 0)%nat || (win_end (i - 1) <=? s)%nat
  then foldl add_mean roll_init (slice values s e)
  else
    let st' := foldl remove_mean st (slice values (win_start w (i - 1)) s) in
    foldl add_mean st' (slice values (win_end (i - 1)) e).

Fixpoint roll_loop (values : Series) (w minp : nat) (idx : list nat)
    (st : roll_state) : Series :=
  match idx with
  | [] => []
  | i :: idx' =>
      let st' := roll_step values w st i in
      calc_mean minp st' :: roll_loop values w minp idx' st'
  end.

Definition rolling_mean (w : nat) (values : Series) : Series :=
  roll_loop values w w (seq 0 (length values)) roll_init.

(** *** [s.ewm(span=n).mean()]

    The recursive kernel of pandas with [adjust=True],
    [ignore_na=False] and [min_periods=0]: [alpha = 2 / (span + 1)],
    the running weighted mean [weighted] and the weight [old_wt] of the
    past.  The kernel skips the update when the new value equals the
    running mean; the update leaves the mean unchanged there, so the
    shortcut is not modelled. *)
Record ewm_state : Type :=
  EwmState { weighted : float64; old_wt : Qc; ewm_nobs : nat }.

Definition ewm_alpha (span : Z) : Qc := QcZ 2 / (QcZ span + 1).

Definition ewm_out (st : ewm_state) : float64 :=
  if (1 <=? ewm_nobs st)%nat then weighted st else NaN.

Definition ewm_step (span : Z) (st : ewm_state) (cur : float64) : ewm_state :=
  let is_obs := negb (is_nan cur) in
  let n := (ewm_nobs st + (if is_obs then 1 else 0))%nat in
  if negb (is_nan (weighted st)) then
    let wt := old_wt st * (1 - ewm_alpha span) in
    if is_obs then
      EwmState (div (add (mul (Fin wt) (weighted st)) (mul (Fin 1) cur))
                    (Fin (wt + 1)))
               (wt + 1) n
    else EwmState (weighted st) wt n
  else if is_obs then EwmState cur (old_wt st) n
  else EwmState (weighted st) (old_wt st) n.

Fixpoint ewm_loop (span : Z) (st : ewm_state) (vals : Series) : Series :=
  match vals with
  | [] => []
  | cur :: vals' =>
      let st' := ewm_step span st cur in
      ewm_out st' :: ewm_loop span st' vals'
  end.

Definition ewm_mean (span : Z) (vals : Series) : Series :=
  match vals with
  | [] => []
  | v0 :: vals' =>
      let st := EwmState v0 1 (if is_nan v0 then 0 else 1) in
      ewm_out st :: ewm_loop span st vals'
  end.

End Pandas.
Export Pandas.

(** ** pandas DataFrame and the object store

    A frame is its row count and its columns by name.  The [time] column
    holds the epoch milliseconds of each point.  Python passes frames by
    reference, so frames live in a store and functions receive a
    reference. *)

Record DataFrame : Type := Frame { nrows : nat; columns : gmap string Series }.

Global Instance DataFrame_inhabited : Inhabited DataFrame := populate (Frame 0 ∅).

(** [df[key]] *)
Definition getitem (df : DataFrame) (key : string) : result Series :=
  match columns df !! key with
  | Some s => Ok s
  | None => Raise (KeyError key)
  end.

(** [df[key] = s] *)
Definition setitem (df : DataFrame) (key : string) (s : Series) : DataFrame :=
  Frame (nrows df) (<[key := s]> (columns df)).

Abbreviation ref := nat.
Abbreviation heap := (gmap nat DataFrame).

(** Computations that read and update the store and may raise. *)
Definition M (A : Type) : Type := heap → heap * result A.

Definition ret_M {A} (a : A) : M A := λ h, (h, Ok a).
Definition bind_M {A B} (m : M A) (f : A → M B) : M B := λ h,
  match m h with
  | (h', Ok a) => f a h'
  | (h', Raise e) => (h', Raise e)
  end.

Global Instance M_ret : MRet M := @ret_M.
Global Instance M_bind : MBind M := λ A B f m, bind_M m f.

(** [df[key]] and [df[key] = s] through a reference.  A reference always
    points to a frame of the store. *)
Definition ref_getitem (df : ref) (key : string) : M Series := λ h,
  (h, getitem (h !!! df) key).

Definition ref_setitem (df : ref) (key : string) (s : Series) : M unit := λ h,
  (alter (λ d, setitem d key s) df h, Ok tt).

(** ** API: the frame built by [get_chart]

    [data] is the [prices] list of the provider's response: pairs of a
    timestamp in milliseconds and a price.  Each call builds a new frame.
    The embedding starts where the response has arrived, holds the
    [prices] key and its timestamps have been converted: the failures of
    the request, of the key lookup and of [pd.to_datetime] are not
    modelled, and the properties below take the frame as given. *)
Definition chart_frame (data : list (Z * Qc)) : DataFrame :=
  Frame (length data)
        (<["price" := (Fin ∘ snd) <$> data]>
           (<["time" := (of_Z ∘ fst) <$> data]> ∅)).

Definition get_chart (data : list (Z * Qc)) : M ref := λ h,
  let r := fresh (dom h) in (<[r := chart_frame data]> h, Ok r).

(** ** INDICATORS *)

(** The two rolling averages of the RSI and the final formula, as the
    locals [gain], [loss] and the expression [100 - (100/(1+rs))]. *)
Definition avg_gain (delta : Series) : Series :=
  rolling_mean 14 (clip_lower (of_Z 0) delta).
Definition avg_loss (delta : Series) : Series :=
  sneg (rolling_mean 14 (clip_upper (of_Z 0) delta)).
Definition rsi_of_rs (rs : Series) : Series :=
  rsub (of_Z 100) (rdiv (of_Z 100) (radd (of_Z 1) rs)).

Definition add_indicators (df : ref) : M ref :=
  p ← ref_getitem df "price";
  ref_setitem df "SMA20" (rolling_mean 20 p);;
  p ← ref_getitem df "price";
  ref_setitem df "SMA50" (rolling_mean 50 p);;
  p ← ref_getitem df "price";
  ref_setitem df "EMA20" (ewm_mean 20 p);;
  p ← ref_getitem df "price";
  let delta := diff p in
  let gain := avg_gain delta in
  let loss := avg_loss delta in
  let rs := sdiv gain loss in
  ref_setitem df "RSI" (rsi_of_rs rs);;
  mret df.

(** ** KI SIGNAL ENGINE *)

Definition last_of (df : DataFrame) (key : string) : result float64 :=
  s ← getitem df key; iloc_last s.

Definition classify (score : Z) : string :=
  if (2 <=? score)%Z then "BUY"
  else if (score <=? -1)%Z then "SELL"
  else "HOLD".

Definition ai_signal (df : DataFrame) : result (string * Z) :=
  let score := 0%Z in
  a ← last_of df "SMA20";
  b ← last_of df "SMA50";
  let score := if gt a b then (score + 1)%Z else score in
  a ← last_of df "price";
  b ← last_of df "EMA20";
  let score := if gt a b then (score + 1)%Z else score in
  r ← last_of df "RSI";
  let score := if lt r (of_Z 30) then (score + 1)%Z else score in
  r ← last_of df "RSI";
  let score := if gt r (of_Z 70) then (score - 1)%Z else score in
  Ok (classify score, score).

(** ** STRATEGY BACKTEST *)

Definition at_row (df : DataFrame) (key : string) (i : nat) : result float64 :=
  s ← getitem df key; iloc s i.

Record portfolio : Type := Portfolio { cash : float64; coin_amt : float64 }.

Definition backtest_step (df : DataFrame) (st : portfolio) (i : nat)
  : result portfolio :=
  a ← at_row df "SMA20" i;
  b ← at_row df "SMA50" i;
  if gt a b && eqb (coin_amt st) (of_Z 0) then
    p ← at_row df "price" i;
    Ok (Portfolio (of_Z 0) (div (cash st) p))
  else
    a ← at_row df "SMA20" i;
    b ← at_row df "SMA50" i;
    if lt a b && gt (coin_amt st) (of_Z 0) then
      p ← at_row df "price" i;
      Ok (Portfolio (mul (coin_amt st) p) (of_Z 0))
    else Ok st.

Definition backtest_start : portfolio := Portfolio (of_Z 1000) (of_Z 0).

Definition backtest_loop (df : DataFrame) : result portfolio :=
  for_each (backtest_step df) (seq 50 (nrows df - 50)) backtest_start.

Definition backtest_final (df : DataFrame) (st : portfolio) : result float64 :=
  if gt (cash st) (of_Z 0) then Ok (cash st)
  else p ← last_of df "price"; Ok (mul (coin_amt st) p).

Definition backtest (df : DataFrame) : result float64 :=
  st ← backtest_loop df; backtest_final df st.

(** The number shown after "Backtest Ergebnis:", [round(final, 2)]. *)
Definition backtest_shown (df : DataFrame) : result float64 :=
  final ← backtest df; Ok (round2_float final).

(** ** SL / TP TOOL

    Python [float] arithmetic on the three inputs: unlike numpy, the
    division raises on a zero divisor. *)

Definition py_div (a b : Qc) : result Qc :=
  if Qceqb b 0 then Raise ZeroDivisionError else Ok (a / b).

(** [None] when the guard skips the computation, otherwise the number
    written after "Risk Reward:". *)
Definition risk_reward (entry sl tp : Qc) : result (option Qc) :=
  if Qcltb 0 entry && Qcltb 0 sl && Qcltb 0 tp then
    let risk := entry - sl in
    let reward := tp - entry in
    q ← py_div reward risk;
    Ok (Some (round2 q))
  else Ok None.

(** ** STORAGE and TRADE LOG

    [trades.json] is the only file the script touches: the file system is
    the content of that file, or [None] while it does not exist.  The
    [json] module is a library: its encoder and decoder are parameters. *)

Module TradeLog.

Record Trade : Type :=
  MkTrade { coin : string; type : string; amount : Qc; price : Qc }.

Record filesystem : Type := FS { data_file : option string }.

(** What the operating system does to a save: nothing, refuse to open
    the file for writing, or fail after [written] characters reached
    the file. *)
Inductive io_fault : Type :=
| NoFault
| OpenFails
| WriteFails (written : nat).

Section Storage.

Variable json_dumps : list Trade → string.
Variable json_loads : string → result (list Trade).

Definition load_trades (fs : filesystem) : result (list Trade) :=
  match data_file fs with
  | Some text => json_loads text
  | None => Ok []
  end.

(** [open(DATA_FILE, "w")] creates or truncates the file before
    anything is written; [json.dump] then writes the text. *)
Definition save_trades (fault : io_fault) (trades : list Trade)
    (fs : filesystem) : filesystem * result unit :=
  match fault with
  | OpenFails => (fs, Raise OSError)
  | WriteFails written =>
      (FS (Some (String.substring 0 written (json_dumps trades))), Raise OSError)
  | NoFault => (FS (Some (json_dumps trades)), Ok tt)
  end.

(** The body of [if st.button("Trade speichern")]. *)
Definition trade_speichern (fault : io_fault) (coin_name t_type : string)
    (amt tprice : Qc) (fs : filesystem) : filesystem * result unit :=
  match load_trades fs with
  | Raise e => (fs, Raise e)
  | Ok trades =>
      let trades := trades ++ [MkTrade coin_name t_type amt tprice] in
      save_trades fault trades fs
  end.

End Storage.

(** *** A concrete text codec

    An S-expression encoding of trade lists, used to run the storage
    functions on concrete files. *)
Definition frac (q : Qc) : Z * Z := (Qnum (this q), Zpos (Qden (this q))).
Definition unfrac (p : Z * Z) : Qc := Q2Qc (fst p # Z.to_pos (snd p)).

#[local] Instance Serialize_Trade : Serialize Trade := λ t,
  [Atom "trade"; to_sexp (coin t); to_sexp (type t);
   to_sexp (frac (amount t)); to_sexp (frac (price t))]%sexp.

#[local] Instance Deserialize_Trade : Deserialize Trade :=
  Deser.match_con "trade" []
    [("trade", Deser.con4_ (λ c t a p, MkTrade c t (unfrac a) (unfrac p)))].

Definition sexp_dumps (trades : list Trade) : string := to_string trades.

Definition sexp_loads (text : string) : result (list Trade) :=
  match from_string text with
  | inr trades => Ok trades
  | inl _ => Raise JSONDecodeError
  end.

End TradeLog.

(** ** Decidable equality, to settle closed goals by evaluation *)

Global Instance float64_eq_dec : EqDecision float64.
Proof. solve_decision. Defined.
Global Instance exn_eq_dec : EqDecision exn.
Proof. solve_decision. Defined.
Global Instance result_eq_dec `{EqDecision A} : EqDecision (result A).
Proof. solve_decision. Defined.
Global Instance DataFrame_eq_dec : EqDecision DataFrame.
Proof. solve_decision. Defined.
Global Instance portfolio_eq_dec : EqDecision portfolio.
Proof. solve_decision. Defined.
Global Instance Trade_eq_dec : EqDecision TradeLog.Trade.
Proof. solve_decision. Defined.
Global Instance filesystem_eq_dec : EqDecision TradeLog.filesystem.
Proof. solve_decision. Defined.

(** ** The page's pipeline, from the provider's data to the frame

    [df = get_chart(coin_id, days); df = add_indicators(df)], run on an
    empty store; the result is the frame the variable [df] then refers
    to. *)
Definition indicator_frame (data : list (Z * Qc)) : option DataFrame :=
  match (df ← get_chart data; add_indicators df) ∅ with
  | (h, Ok r) => h !! r
  | (_, Raise _) => None
  end.

(** ** Closed forms

    The frame [add_indicators] leaves behind, one element of its RSI
    column, and the score [ai_signal] accumulates from the five values it
    reads. *)
Definition price_series (data : list (Z * Qc)) : Series := (Fin ∘ snd) <$> data.

Definition rsi_series (p : Series) : Series :=
  rsi_of_rs (sdiv (avg_gain (diff p)) (avg_loss (diff p))).

Definition with_indicators (p : Series) (df : DataFrame) : DataFrame :=
  setitem (setitem (setitem (setitem df
    "SMA20" (rolling_mean 20 p))
    "SMA50" (rolling_mean 50 p))
    "EMA20" (ewm_mean 20 p))
    "RSI" (rsi_series p).

Definition rsi_point (g l : float64) : float64 :=
  sub (of_Z 100) (div (of_Z 100) (add (of_Z 1) (div g l))).

Definition float_score (sma20 sma50 price ema20 rsi : float64) : Z :=
  ((if gt sma20 sma50 then 1 else 0) +
   (if gt price ema20 then 1 else 0) +
   (if lt rsi (of_Z 30) then 1 else 0) -
   (if gt rsi (of_Z 70) then 1 else 0))%Z.

(** Whether SMA20 sits above SMA50 at row [i], as the backtest reads it. *)
Definition sma_above (df : DataFrame) (i : nat) : result bool :=
  a ← at_row df "SMA20" i; b ← at_row df "SMA50" i; Ok (gt a b).

(** ** Windows and their observations

    The non-NaN values of a window, and the state the rolling kernel
    holds when the window is accumulated from scratch. *)
Definition fin_part (x : float64) : option Qc :=
  match x with Fin q => Some q | _ => None end.

Definition observations (win : Series) : list Qc := omap fin_part win.

Definition Qsum (l : list Qc) : Qc := foldr Qcplus 0 l.

Definition window_state (win : Series) : roll_state :=
  RollState (length (observations win)) (Fin (Qsum (observations win))).

(** The window of width [w] that ends at index [i]. *)
Definition window (w : nat) (values : Series) (i : nat) : Series :=
  slice values (win_start w i) (win_end i).

(** ** Predicates on values and portfolios *)


(** A value that is NaN or a finite number satisfying [P]. *)
Definition nan_or (P : Qc → Prop) (x : float64) : Prop :=
  match x with
  | NaN => True
  | Inf _ => False
  | Fin q => P q
  end.


(** ** Sample inputs *)

(** Points at one-hour steps with the given prices. *)
Definition sample_data (prices : list Z) : list (Z * Qc) :=
  imap (λ i p, (3600000 * Z.of_nat i, QcZ p)%Z) prices.

Definition flat_15 : list (Z * Qc) := sample_data (replicate 15 100%Z).
Definition rising_21 : list (Z * Qc) := sample_data (seqZ 1 21).

(** Sixty falling prices, and prices that rise for sixty points and fall
    afterwards. *)
Definition falling_60 : list (Z * Qc) :=
  sample_data ((λ k, 100 - k)%Z <$> seqZ 0 60).
Definition rise_fall_120 : list (Z * Qc) :=
  sample_data (seqZ 1 60 ++ ((λ k, 60 - k)%Z <$> seqZ 0 59) ++ [7%Z]).


(** A store holding one frame of a single price point. *)
Definition one_point_store : heap := {[ 0%nat := chart_frame [(0%Z, QcZ 1)] ]}.

(** A one-row frame with the indicator values of the specification's
    worked example. *)
Definition example_frame : DataFrame :=
  Frame 1 (<["RSI" := [of_Z 50]]> (<["EMA20" := [of_Z 104]]>
          (<["SMA50" := [of_Z 100]]> (<["SMA20" := [of_Z 105]]>
          (<["price" := [of_Z 106]]> ∅))))).

(** A three-row frame whose last row holds the worked example; the two
    rows before it would score -1 and 1. *)
Definition example_rows : DataFrame :=
  Frame 3 (<["RSI" := [of_Z 80; of_Z 50; of_Z 50]]>
          (<["EMA20" := [of_Z 110; of_Z 101; of_Z 104]]>
          (<["SMA50" := [of_Z 100; of_Z 100; of_Z 100]]>
          (<["SMA20" := [of_Z 90; of_Z 95; of_Z 105]]>
          (<["price" := [of_Z 100; of_Z 102; of_Z 106]]> ∅))))).

(** Two trades and a file that holds the first. *)
Definition trade_1 : TradeLog.Trade :=
  TradeLog.MkTrade "Bitcoin" "BUY" (Q2Qc (3 # 2)) (QcZ 100).
Definition trade_2 : TradeLog.Trade :=
  TradeLog.MkTrade "Ethereum" "SELL" (QcZ 2) (QcZ 50).
Definition one_trade_file : TradeLog.filesystem :=
  TradeLog.FS (Some (TradeLog.sexp_dumps [trade_1])).

(** ** The specification's words, for comparison with the code *)

(** "arithmetic mean of prices[i-w+1..i] if i >= w-1, else undefined" *)
Definition spec_SMA (w : nat) (prices : list Qc) (i : nat) : float64 :=
  if (w - 1 <=? i)%nat
  then Fin (Qsum (take w (drop (i + 1 - w) prices)) / QcZ (Z.of_nat w))
  else NaN.

(** "+1 if SMA20 > SMA50, +1 if price > EMA20, +1 if RSI < 30,
    -1 if RSI > 70", on defined values. *)
Definition spec_score (sma20 sma50 price ema20 rsi : Qc) : Z :=
  ((if Qcltb sma50 sma20 then 1 else 0) +
   (if Qcltb ema20 price then 1 else 0) +
   (if Qcltb rsi (QcZ 30) then 1 else 0) -
   (if Qcltb (QcZ 70) rsi then 1 else 0))%Z.



(** ** Notions for the further properties *)










(** A file cut off in the middle of a record. *)
Definition broken_file : TradeLog.filesystem := TradeLog.FS (Some "((trade").

(** A frame without a price column, in a store of its own. *)
Definition no_price_store : heap :=
  {[ 0%nat := Frame 1 (<["time" := [of_Z 0]]> ∅) ]}.

(** * The same statements on binary64

    The embedding above computes with exact rationals.  Where the
    rounding, the overflow or the underflow of the doubles decides what
    the script answers, the statements of [add_indicators] and of the
    backtest are embedded a second time, on the primitive binary64
    numbers of Rocq ([PrimFloat]: IEEE 754 with round to nearest even,
    signed zeros, the infinities and NaN).  The pandas kernels are taken
    with the terms that only matter under rounding.  Frames are values
    here: the store and the aliasing of frames are the subject of the
    first embedding. *)

Module Binary64.

Abbreviation Series := (list float).

(** The conversion of an integer to a double, [<float64_t>n]. *)
Definition of_Z (z : Z) : float := SF2Prim (binary_normalize prec emax z 0 false).

(** [s.iloc[i]] for [i >= 0] and [s.iloc[-1]]. *)
Definition iloc (s : Series) (i : nat) : result float :=
  match s !! i with
  | Some x => Ok x
  | None => Raise IndexError
  end.

Definition iloc_last (s : Series) : result float :=
  match s !! (length s - 1)%nat with
  | Some x => Ok x
  | None => Raise IndexError
  end.

(** [s.diff()], [s.clip(lower=lo)] and [s.clip(upper=hi)]: the clips
    keep every value that is NaN or on the right side of the bound. *)
Definition diff (s : Series) : Series :=
  match s with
  | [] => []
  | _ :: tl => nan :: zip_with PrimFloat.sub tl s
  end.

Definition clip_lower (lo : float) (s : Series) : Series :=
  (λ x, if (x <? lo)%float then lo else x) <$> s.
Definition clip_upper (hi : float) (s : Series) : Series :=
  (λ x, if (hi <? x)%float then hi else x) <$> s.

(** *** [s.rolling(w).mean()]

    Window functions first replace the infinities of their input by NaN
    ([_prep_values]).  The kernel [roll_mean] then keeps, for the window
    [max 0 (i + 1 - w) .. i], the count [nobs] of the non-NaN values, their
    sum with a Kahan compensation term for the additions and one for the
    removals, the count [neg_ct] of the values with the sign bit set, and
    the length of the run of equal values that ends at the newest
    value. *)
Definition prep_values (values : Series) : Series :=
  (λ x, if is_infinity x then nan else x) <$> values.

Record roll_state : Type := RollState {
  nobs : Z;
  sum_x : float;
  neg_ct : Z;
  compensation_add : float;
  compensation_remove : float;
  num_consecutive_same_value : Z;
  prev_value : float }.

Definition roll_setup (first : float) : roll_state :=
  RollState 0 0 0 0 0 0 first.

Definition add_mean (st : roll_state) (val : float) : roll_state :=
  if (val =? val)%float then
    let y := (val - compensation_add st)%float in
    let t := (sum_x st + y)%float in
    RollState (nobs st + 1) t
      (if get_sign val then neg_ct st + 1 else neg_ct st)%Z
      (t - sum_x st - y)%float
      (compensation_remove st)
      (if (val =? prev_value st)%float
       then num_consecutive_same_value st + 1 else 1)%Z
      val
  else st.

Definition remove_mean (st : roll_state) (val : float) : roll_state :=
  if (val =? val)%float then
    let y := (- val - compensation_remove st)%float in
    let t := (sum_x st + y)%float in
    RollState (nobs st - 1) t
      (if get_sign val then neg_ct st - 1 else neg_ct st)%Z
      (compensation_add st)
      (t - sum_x st - y)%float
      (num_consecutive_same_value st)
      (prev_value st)
  else st.

(** The mean of the window: NaN below [minp] observations, the common
    value when all observations are equal, and 0 when the sign of the
    quotient contradicts the signs of the observations. *)
Definition calc_mean (minp : Z) (st : roll_state) : float :=
  if ((minp <=? nobs st) && (0 <? nobs st))%Z then
    let result := (sum_x st / of_Z (nobs st))%float in
    if (nobs st <=? num_consecutive_same_value st)%Z then prev_value st
    else if (neg_ct st =? 0)%Z && (result <? 0)%float then 0%float
    else if (neg_ct st =? nobs st)%Z && (0 <? result)%float then 0%float
    else result
  else nan.

Definition win_start (w i : nat) : nat := (i + 1 - w)%nat.
Definition win_end (i : nat) : nat := (i + 1)%nat.

Definition slice (values : Series) (lo hi : nat) : Series :=
  drop lo (take hi values).

Definition roll_step (values : Series) (w : nat) (st : roll_state) (i : nat)
  : roll_state :=
  let s := win_start w i in
  let e := win_end i in
  if (i =? 0)%nat || (win_end (i - 1) <=? s)%nat
  then foldl add_mean (roll_setup (default nan (values !! s))) (slice values s e)
  else
    let st' := foldl remove_mean st (slice values (win_start w (i - 1)) s) in
    foldl add_mean st' (slice values (win_end (i - 1)) e).

Fixpoint roll_loop (values : Series) (w : nat) (minp : Z) (idx : list nat)
    (st : roll_state) : Series :=
  match idx with
  | [] => []
  | i :: idx' =>
      let st' := roll_step values w st i in
      calc_mean minp st' :: roll_loop values w minp idx' st'
  end.

Definition rolling_mean (w : nat) (values : Series) : Series :=
  let values := prep_values values in
  roll_loop values w (Z.of_nat w) (seq 0 (length values)) (roll_setup nan).

(** *** [s.ewm(span=n).mean()]

    [com = (span - 1) / 2], [alpha = 1 / (1 + com)], and the recursion of
    the kernel [ewm] with [adjust=True], [ignore_na=False]; the update is
    skipped when the new value equals the running mean. *)
Record ewm_state : Type :=
  EwmState { weighted : float; old_wt : float; ewm_nobs : Z }.

Definition ewm_out (st : ewm_state) : float :=
  if (1 <=? ewm_nobs st)%Z then weighted st else nan.

Definition ewm_step (old_wt_factor new_wt : float) (st : ewm_state)
    (cur : float) : ewm_state :=
  let is_observation := (cur =? cur)%float in
  let n := (ewm_nobs st + (if is_observation then 1 else 0))%Z in
  if (weighted st =? weighted st)%float then
    let wt := (old_wt st * old_wt_factor)%float in
    if is_observation then
      EwmState
        (if negb (weighted st =? cur)%float
         then ((wt * weighted st + new_wt * cur) / (wt + new_wt))%float
         else weighted st)
        (wt + new_wt)%float n
    else EwmState (weighted st) wt n
  else if is_observation then EwmState cur (old_wt st) n
  else EwmState (weighted st) (old_wt st) n.

Fixpoint ewm_loop (old_wt_factor new_wt : float) (st : ewm_state)
    (vals : Series) : Series :=
  match vals with
  | [] => []
  | cur :: vals' =>
      let st' := ewm_step old_wt_factor new_wt st cur in
      ewm_out st' :: ewm_loop old_wt_factor new_wt st' vals'
  end.

Definition ewm_mean (span : float) (vals : Series) : Series :=
  let com := ((span - 1) / 2)%float in
  let alpha := (1 / (1 + com))%float in
  let old_wt_factor := (1 - alpha)%float in
  match prep_values vals with
  | [] => []
  | v0 :: vals' =>
      let st := EwmState v0 1 (if (v0 =? v0)%float then 1 else 0) in
      ewm_out st :: ewm_loop old_wt_factor 1 st vals'
  end.

(** *** Frames *)

Record DataFrame : Type := Frame { nrows : nat; columns : gmap string Series }.

Definition getitem (df : DataFrame) (key : string) : result Series :=
  match columns df !! key with
  | Some s => Ok s
  | None => Raise (KeyError key)
  end.

Definition setitem (df : DataFrame) (key : string) (s : Series) : DataFrame :=
  Frame (nrows df) (<[key := s]> (columns df)).

(** The frame of [get_chart]; the [time] column is kept as the epoch
    milliseconds. *)
Definition chart_frame (data : list (Z * float)) : DataFrame :=
  Frame (length data)
        (<["price" := snd <$> data]> (<["time" := (of_Z ∘ fst) <$> data]> ∅)).

(** *** INDICATORS *)

Definition avg_gain (delta : Series) : Series :=
  rolling_mean 14 (clip_lower 0 delta).
Definition avg_loss (delta : Series) : Series :=
  opp <$> rolling_mean 14 (clip_upper 0 delta).
Definition rsi_of_rs (rs : Series) : Series :=
  (λ r, 100 - 100 / (1 + r))%float <$> rs.

Definition add_indicators (df : DataFrame) : result DataFrame :=
  p ← getitem df "price";
  let df := setitem df "SMA20" (rolling_mean 20 p) in
  p ← getitem df "price";
  let df := setitem df "SMA50" (rolling_mean 50 p) in
  p ← getitem df "price";
  let df := setitem df "EMA20" (ewm_mean 20 p) in
  p ← getitem df "price";
  let delta := diff p in
  let gain := avg_gain delta in
  let loss := avg_loss delta in
  let rs := zip_with PrimFloat.div gain loss in
  let df := setitem df "RSI" (rsi_of_rs rs) in
  Ok df.

(** [df = get_chart(coin_id, days); df = add_indicators(df)] *)
Definition indicator_frame (data : list (Z * float)) : result DataFrame :=
  add_indicators (chart_frame data).

(** *** STRATEGY BACKTEST *)

Definition at_row (df : DataFrame) (key : string) (i : nat) : result float :=
  s ← getitem df key; iloc s i.

Definition last_of (df : DataFrame) (key : string) : result float :=
  s ← getitem df key; iloc_last s.

Record portfolio : Type := Portfolio { cash : float; coin_amt : float }.

Definition backtest_step (df : DataFrame) (st : portfolio) (i : nat)
  : result portfolio :=
  a ← at_row df "SMA20" i;
  b ← at_row df "SMA50" i;
  if (b <? a)%float && (coin_amt st =? 0)%float then
    p ← at_row df "price" i;
    Ok (Portfolio 0 (cash st / p))
  else
    a ← at_row df "SMA20" i;
    b ← at_row df "SMA50" i;
    if (a <? b)%float && (0 <? coin_amt st)%float then
      p ← at_row df "price" i;
      Ok (Portfolio (coin_amt st * p) 0)
    else Ok st.

Definition backtest_start : portfolio := Portfolio 1000 0.

Definition backtest_loop (df : DataFrame) : result portfolio :=
  for_each (backtest_step df) (seq 50 (nrows df - 50)) backtest_start.

Definition backtest_final (df : DataFrame) (st : portfolio) : result float :=
  if (0 <? cash st)%float then Ok (cash st)
  else p ← last_of df "price"; Ok (coin_amt st * p)%float.

Definition backtest (df : DataFrame) : result float :=
  st ← backtest_loop df; backtest_final df st.

(** *** Closed forms and predicates *)

Definition rsi_series (p : Series) : Series :=
  rsi_of_rs (zip_with PrimFloat.div (avg_gain (diff p)) (avg_loss (diff p))).

Definition with_indicators (p : Series) (df : DataFrame) : DataFrame :=
  setitem (setitem (setitem (setitem df
    "SMA20" (rolling_mean 20 p))
    "SMA50" (rolling_mean 50 p))
    "EMA20" (ewm_mean 20 p))
    "RSI" (rsi_series p).

Definition rsi_point (g l : float) : float := (100 - 100 / (1 + g / l))%float.

(** A price that is a number above zero. *)
Definition positive_finite (p : float) : bool :=
  (0 <? p)%float && (p <? infinity)%float.

(** Zero of either sign, a positive number or plus infinity; not NaN. *)
Definition nonneg (x : float) : Prop := (0 <=? x)%float = true.

(** Cash and holdings are non-negative and one of them is zero. *)
Definition invariant (st : portfolio) : Prop :=
  nonneg (cash st) ∧ nonneg (coin_amt st) ∧
  ((cash st =? 0)%float = true ∨ (coin_amt st =? 0)%float = true).

(** The sign a rounded result carries. *)
Definition has_sign (s : bool) (x : spec_float) : Prop :=
  match x with
  | S754_zero s' | S754_infinity s' | S754_finite s' _ _ => s' = s
  | S754_nan => False
  end.



(** *** Sample inputs *)

Definition sample_data (prices : Series) : list (Z * float) :=
  imap (λ i p, (3600000 * Z.of_nat i, p)%Z) prices.


(** Fifty prices 1.0, one price 2^996 (about 6.7e299) and twenty-nine
    prices 2^-100 (about 7.9e-31). *)
Definition spike_80 : list (Z * float) :=
  sample_data (replicate 50 1%float ++ [0x1p+996%float]
               ++ replicate 29 0x1p-100%float).

Definition flat_15 : list (Z * float) := sample_data (replicate 15 100%float).
Definition rising_21 : list (Z * float) := sample_data (of_Z <$> seqZ 1 21).
Definition rise_fall_120 : list (Z * float) :=
  sample_data (of_Z <$> (seqZ 1 60 ++ ((λ k, 60 - k)%Z <$> seqZ 0 59) ++ [7%Z])).

End Binary64.

(** * Properties *)

(** ** Rational arithmetic *)

Ltac qc2q :=
  unfold Qcle, Qclt, Qcdiv, Qcminus, Qcplus, Qcmult, Qcopp, Qcinv, QcZ in *;
  simpl in *; rewrite ?Qred_correct in *.

Lemma Qcltb_true (a b : Qc) : Qcltb a b = true ↔ a < b.
Proof. unfold Qcltb. apply bool_decide_eq_true. Qed.

Lemma Qcltb_false (a b : Qc) : Qcltb a b = false ↔ b <= a.
Proof.
  unfold Qcltb. rewrite bool_decide_eq_false. split.
  - apply Qcnot_lt_le.
  - apply Qcle_not_lt.
Qed.

Lemma Qceqb_true (a b : Qc) : Qceqb a b = true ↔ a = b.
Proof. unfold Qceqb. apply bool_decide_eq_true. Qed.

Lemma Qceqb_false (a b : Qc) : Qceqb a b = false ↔ a ≠ b.
Proof. unfold Qceqb. apply bool_decide_eq_false. Qed.

Lemma QcZ_pos (z : Z) : (0 < z)%Z → 0 < QcZ z.
Proof.
  intros Hz. qc2q. change 0%Q with (inject_Z 0). rewrite <- Zlt_Qlt. exact Hz.
Qed.

Lemma QcZ_nonzero (z : Z) : (0 < z)%Z → QcZ z ≠ 0.
Proof.
  intros Hz Heq. apply QcZ_pos in Hz. rewrite Heq in Hz.
  exact (Qclt_not_eq _ _ Hz eq_refl).
Qed.








(** ** The rolling mean kernel computes the mean of each window *)

Section RollingMean.

Implicit Types (values win : Series) (w i n : nat).
Local Open Scope nat_scope.


Lemma observations_app win1 win2 :
  observations (win1 ++ win2) = observations win1 ++ observations win2.
Proof. unfold observations. apply omap_app. Qed.

Lemma Qsum_app (l1 l2 : list Qc) : Qsum (l1 ++ l2) = (Qsum l1 + Qsum l2)%Qc.
Proof.
  induction l1 as [|x l1 IH]; simpl.
  - ring.
  - rewrite IH. ring.
Qed.

Lemma foldl_add_mean win n a :
  Forall (nan_or (λ _, True)) win →
  foldl add_mean (RollState n (Fin a)) win =
  RollState (n + length (observations win))
            (Fin (a + Qsum (observations win))%Qc).
Proof.
  intros Hwin. revert n a.
  induction Hwin as [|x win Hx _ IH]; intros n a; simpl.
  - f_equal; [lia | f_equal; ring].
  - destruct x as [| |q]; simpl in *; try done.
    + apply IH.
    + unfold add_mean at 2. simpl. rewrite IH. simpl.
      f_equal; [lia | f_equal; ring].
Qed.

Lemma foldl_remove_mean win n a :
  Forall (nan_or (λ _, True)) win →
  foldl remove_mean (RollState n (Fin a)) win =
  RollState (n - length (observations win))
            (Fin (a - Qsum (observations win))%Qc).
Proof.
  intros Hwin. revert n a.
  induction Hwin as [|x win Hx _ IH]; intros n a; simpl.
  - f_equal; [lia | f_equal; ring].
  - destruct x as [| |q]; simpl in *; try done.
    + apply IH.
    + unfold remove_mean at 2. simpl. rewrite IH. simpl.
      f_equal; [lia | f_equal; ring].
Qed.

Lemma foldl_add_mean_init win :
  Forall (nan_or (λ _, True)) win →
  foldl add_mean roll_init win = window_state win.
Proof.
  intros Hwin. unfold roll_init. rewrite foldl_add_mean by done.
  unfold window_state. f_equal. f_equal. ring.
Qed.

Lemma slice_split values a b c :
  a ≤ b → b ≤ c → c ≤ length values →
  slice values a c = slice values a b ++ slice values b c.
Proof.
  intros Hab Hbc Hc. unfold slice.
  rewrite <- (take_drop b (take c values)) at 1.
  rewrite take_take, Nat.min_l by lia.
  rewrite drop_app_le; [done|].
  rewrite length_take. lia.
Qed.

Lemma Forall_slice (P : float64 → Prop) values a b :
  Forall P values → Forall P (slice values a b).
Proof. intros H. unfold slice. by apply Forall_drop, Forall_take. Qed.

(** One incremental update gives the state of the next window. *)
Lemma roll_step_window values w i :
  Forall (nan_or (λ _, True)) values →
  1 ≤ w → i < length values →
  roll_step values w (window_state (window w values (i - 1))) i =
  window_state (window w values i).
Proof.
  intros Hv Hw Hi. unfold roll_step, window.
  destruct ((i =? 0) || (win_end (i - 1) <=? win_start w i)) eqn:Hsetup.
  { apply foldl_add_mean_init. by apply Forall_slice. }
  apply orb_false_iff in Hsetup as [Hi0 Hs].
  apply Nat.eqb_neq in Hi0. apply Nat.leb_gt in Hs.
  unfold win_start, win_end in *.
  assert (Hold : slice values (i - 1 + 1 - w) (i - 1 + 1) =
                 slice values (i - 1 + 1 - w) (i + 1 - w) ++
                 slice values (i + 1 - w) (i - 1 + 1))
    by (apply slice_split; lia).
  assert (Hnew : slice values (i + 1 - w) (i + 1) =
                 slice values (i + 1 - w) (i - 1 + 1) ++
                 slice values (i - 1 + 1) (i + 1))
    by (apply slice_split; lia).
  rewrite Hold, Hnew. unfold window_state.
  rewrite foldl_remove_mean by (by apply Forall_slice).
  rewrite foldl_add_mean by (by apply Forall_slice).
  rewrite !observations_app, !length_app, !Qsum_app.
  f_equal; [lia | f_equal; ring].
Qed.

Lemma roll_loop_windows values w minp n i :
  Forall (nan_or (λ _, True)) values →
  1 ≤ w → 1 ≤ i → i + n ≤ length values →
  roll_loop values w minp (seq i n) (window_state (window w values (i - 1))) =
  (λ j, calc_mean minp (window_state (window w values j))) <$> seq i n.
Proof.
  intros Hv Hw. revert i.
  induction n as [|n IH]; intros i Hi Hn; simpl; [done|].
  rewrite roll_step_window by (done || lia).
  f_equal. specialize (IH (S i)).
  replace (S i - 1) with i in IH by lia. apply IH; lia.
Qed.

(** The kernel, window by window. *)
Lemma rolling_mean_windows values w :
  Forall (nan_or (λ _, True)) values → 1 ≤ w →
  rolling_mean w values =
  (λ j, calc_mean w (window_state (window w values j))) <$> seq 0 (length values).
Proof.
  intros Hv Hw. unfold rolling_mean.
  destruct values as [|v values]; [done|].
  cbn [length seq roll_loop fmap list_fmap].
  assert (H0 : roll_step (v :: values) w roll_init 0 =
               window_state (window w (v :: values) 0)).
  { unfold roll_step, window. simpl.
    apply foldl_add_mean_init. by apply Forall_slice. }
  rewrite H0. f_equal.
  apply (roll_loop_windows (v :: values) w w (length values) 1); simpl; (done || lia).
Qed.

Lemma length_roll_loop values w minp idx st :
  length (roll_loop values w minp idx st) = length idx.
Proof.
  revert st. induction idx as [|i idx IH]; intros st; simpl; [done|].
  by rewrite IH.
Qed.

Lemma length_rolling_mean values w :
  length (rolling_mean w values) = length values.
Proof. unfold rolling_mean. by rewrite length_roll_loop, length_seq. Qed.

Lemma rolling_mean_lookup values w i :
  Forall (nan_or (λ _, True)) values → 1 ≤ w → i < length values →
  rolling_mean w values !! i =
  Some (calc_mean w (window_state (window w values i))).
Proof.
  intros Hv Hw Hi. rewrite rolling_mean_windows by done.
  rewrite list_lookup_fmap, lookup_seq_lt by done. done.
Qed.

(** A window is never longer than [w]. *)
Lemma length_window values w i :
  i < length values → length (window w values i) = Nat.min (i + 1) w.
Proof.
  intros Hi. unfold window, slice, win_start, win_end.
  rewrite length_drop, length_take. lia.
Qed.

Lemma length_observations win : length (observations win) ≤ length win.
Proof.
  induction win as [|x win IH]; simpl; [done|].
  destruct (fin_part x); simpl; lia.
Qed.

(** Before the window is full the kernel answers NaN. *)
Lemma rolling_mean_warmup values w i :
  Forall (nan_or (λ _, True)) values → 1 ≤ w → i < length values →
  i + 1 < w → rolling_mean w values !! i = Some NaN.
Proof.
  intros Hv Hw Hi Hlt. rewrite rolling_mean_lookup by done.
  f_equal. unfold calc_mean, window_state. simpl.
  pose proof (length_observations (window w values i)) as Hobs.
  rewrite length_window in Hobs by done.
  destruct (w <=? _) eqn:Hle; [|done].
  apply Nat.leb_le in Hle. lia.
Qed.






End RollingMean.

(** ** The store after [add_indicators] *)

Section Store.

Implicit Types (h : heap) (r : ref) (df : DataFrame) (p : Series).

Lemma ref_getitem_run h r df key :
  h !! r = Some df → ref_getitem r key h = (h, getitem df key).
Proof.
  intros Hr. unfold ref_getitem. by rewrite (lookup_total_correct _ _ _ Hr).
Qed.

Lemma ref_setitem_run h r df key s :
  h !! r = Some df →
  ref_setitem r key s h = (<[r := setitem df key s]> h, Ok tt).
Proof.
  intros Hr. unfold ref_setitem. f_equal.
  apply map_eq. intros r'. destruct (decide (r = r')) as [<-|Hne].
  - by rewrite lookup_alter_eq, lookup_insert_eq, Hr.
  - by rewrite lookup_alter_ne, lookup_insert_ne.
Qed.

Lemma getitem_setitem_ne df key key' s :
  key ≠ key' → getitem (setitem df key s) key' = getitem df key'.
Proof. intros Hne. unfold getitem, setitem. simpl. by rewrite lookup_insert_ne. Qed.

Lemma getitem_setitem_eq df key s : getitem (setitem df key s) key = Ok s.
Proof. unfold getitem, setitem. simpl. by rewrite lookup_insert_eq. Qed.

Lemma getitem_Ok df key s : columns df !! key = Some s → getitem df key = Ok s.
Proof. intros H. unfold getitem. by rewrite H. Qed.

Lemma add_indicators_run h r df p :
  h !! r = Some df → columns df !! "price" = Some p →
  add_indicators r h = (<[r := with_indicators p df]> h, Ok r).
Proof.
  intros Hr Hp. apply getitem_Ok in Hp.
  unfold add_indicators, mbind, M_bind, bind_M, mret, M_ret, ret_M.
  rewrite (ref_getitem_run _ _ _ _ Hr), Hp.
  rewrite (ref_setitem_run _ _ _ _ _ Hr).
  erewrite ref_getitem_run by apply lookup_insert_eq.
  rewrite getitem_setitem_ne, Hp by done.
  erewrite ref_setitem_run by apply lookup_insert_eq.
  rewrite insert_insert_eq.
  erewrite ref_getitem_run by apply lookup_insert_eq.
  rewrite !getitem_setitem_ne, Hp by done.
  erewrite ref_setitem_run by apply lookup_insert_eq.
  rewrite insert_insert_eq.
  erewrite ref_getitem_run by apply lookup_insert_eq.
  rewrite !getitem_setitem_ne, Hp by done.
  erewrite ref_setitem_run by apply lookup_insert_eq.
  rewrite insert_insert_eq. done.
Qed.

Lemma indicator_frame_eq data :
  indicator_frame data =
  Some (with_indicators (price_series data) (chart_frame data)).
Proof.
  unfold indicator_frame, mbind, M_bind, bind_M, get_chart.
  erewrite add_indicators_run; [|apply lookup_insert_eq|].
  - by rewrite lookup_insert_eq.
  - unfold chart_frame. simpl. by rewrite lookup_insert_eq.
Qed.

End Store.

(** ** Columns of the indicator frame *)

Section Columns.

Implicit Types (df : DataFrame) (p : Series) (data : list (Z * Qc)).
Local Open Scope nat_scope.

Lemma with_indicators_SMA20 p df :
  getitem (with_indicators p df) "SMA20" = Ok (rolling_mean 20 p).
Proof.
  unfold with_indicators.
  rewrite !getitem_setitem_ne by done. apply getitem_setitem_eq.
Qed.

Lemma with_indicators_SMA50 p df :
  getitem (with_indicators p df) "SMA50" = Ok (rolling_mean 50 p).
Proof.
  unfold with_indicators.
  rewrite !getitem_setitem_ne by done. apply getitem_setitem_eq.
Qed.

Lemma with_indicators_EMA20 p df :
  getitem (with_indicators p df) "EMA20" = Ok (ewm_mean 20 p).
Proof.
  unfold with_indicators.
  rewrite !getitem_setitem_ne by done. apply getitem_setitem_eq.
Qed.

Lemma with_indicators_RSI p df :
  getitem (with_indicators p df) "RSI" = Ok (rsi_series p).
Proof. unfold with_indicators. apply getitem_setitem_eq. Qed.

Lemma with_indicators_other p df key :
  key ∉ ["SMA20"; "SMA50"; "EMA20"; "RSI"] →
  columns (with_indicators p df) !! key = columns df !! key.
Proof.
  intros Hkey. rewrite !not_elem_of_cons in Hkey.
  destruct Hkey as (? & ? & ? & ? & _).
  unfold with_indicators, setitem. simpl.
  by rewrite !lookup_insert_ne.
Qed.

Lemma with_indicators_price data :
  getitem (with_indicators (price_series data) (chart_frame data)) "price" =
  Ok (price_series data).
Proof.
  unfold getitem. rewrite with_indicators_other
    by (rewrite !not_elem_of_cons; repeat split; (done || apply not_elem_of_nil)).
  unfold chart_frame, price_series. simpl. by rewrite lookup_insert_eq.
Qed.

Lemma price_series_prices data : price_series data = Fin <$> (snd <$> data).
Proof. unfold price_series. by rewrite list_fmap_compose. Qed.

Lemma Forall_Fin (P : Qc → Prop) (l : list Qc) :
  Forall P l → Forall (nan_or P) (Fin <$> l).
Proof. intros H. by apply Forall_fmap. Qed.

Lemma price_series_finite data : Forall (nan_or (λ _, True)) (price_series data).
Proof.
  rewrite price_series_prices. apply Forall_Fin, Forall_forall. done.
Qed.

Lemma observations_Fin (l : list Qc) : observations (Fin <$> l) = l.
Proof.
  unfold observations. induction l as [|q l IH]; [done|].
  rewrite fmap_cons. cbn [omap list_omap fin_part]. by rewrite IH.
Qed.

Lemma slice_Fin (l : list Qc) a b :
  slice (Fin <$> l) a b = Fin <$> drop a (take b l).
Proof. unfold slice. by rewrite fmap_drop, fmap_take. Qed.

(** On a series of finite prices the kernel is the windowed mean of
    the specification. *)
Lemma rolling_mean_prices (prices : list Qc) w i :
  1 ≤ w → i < length prices →
  rolling_mean w (Fin <$> prices) !! i = Some (spec_SMA w prices i).
Proof.
  intros Hw Hi.
  rewrite rolling_mean_lookup;
    [|apply Forall_Fin, Forall_forall; done|done|by rewrite length_fmap].
  f_equal. unfold calc_mean, window_state, window, win_start, win_end, spec_SMA.
  rewrite slice_Fin, observations_Fin. simpl.
  rewrite length_drop, length_take.
  destruct (w - 1 <=? i) eqn:Hfull.
  - apply Nat.leb_le in Hfull.
    replace (Nat.min (i + 1) (length prices) - (i + 1 - w)) with w by lia.
    rewrite Nat.leb_refl. replace (0 <? w) with true
      by (symmetry; apply Nat.ltb_lt; lia).
    simpl. rewrite (proj2 (Qceqb_false _ _)) by (apply QcZ_nonzero; lia).
    rewrite take_drop_commute.
    by replace (i + 1 - w + w) with (i + 1) by lia.
  - apply Nat.leb_gt in Hfull.
    replace (w <=? _) with false; [done|].
    symmetry. apply Nat.leb_gt. lia.
Qed.

End Columns.

(** ** Indicator Engine *)

Section IndicatorEngine.

Local Open Scope nat_scope.



(** C4 (as amended): [add_indicators] updates the caller's frame in
    place and returns that same object.  After the call the object
    holds the four columns SMA20, SMA50, EMA20 and RSI computed from
    its price column; its row count and every other column (price and
    time among them) are unchanged, and no other object of the store is
    touched. *)
Theorem add_indicators_in_place (h : heap) (r : ref) (df : DataFrame)
    (p : Series) :
  h !! r = Some df → columns df !! "price" = Some p →
  ∃ (h' : heap) (df' : DataFrame),
    add_indicators r h = (h', Ok r) ∧
    h' !! r = Some df' ∧
    (∀ r', r' ≠ r → h' !! r' = h !! r') ∧
    nrows df' = nrows df ∧
    (∀ key, key ∉ ["SMA20"; "SMA50"; "EMA20"; "RSI"] →
       columns df' !! key = columns df !! key) ∧
    columns df' !! "SMA20" = Some (rolling_mean 20 p) ∧
    columns df' !! "SMA50" = Some (rolling_mean 50 p) ∧
    columns df' !! "EMA20" = Some (ewm_mean 20 p) ∧
    columns df' !! "RSI" = Some (rsi_series p).
Proof.
  intros Hr Hp.
  exists (<[r := with_indicators p df]> h), (with_indicators p df).
  split_and!.
  - by apply add_indicators_run.
  - apply lookup_insert_eq.
  - intros r' Hne. by apply lookup_insert_ne.
  - done.
  - apply with_indicators_other.
  - unfold with_indicators, setitem. simpl.
    rewrite !lookup_insert_ne by done. apply lookup_insert_eq.
  - unfold with_indicators, setitem. simpl.
    rewrite !lookup_insert_ne by done. apply lookup_insert_eq.
  - unfold with_indicators, setitem. simpl.
    rewrite !lookup_insert_ne by done. apply lookup_insert_eq.
  - unfold with_indicators, setitem. simpl. apply lookup_insert_eq.
Qed.

Lemma add_indicators_in_place_witness :
  ∃ (h' : heap) (df' : DataFrame),
    add_indicators 0 one_point_store = (h', Ok 0) ∧
    h' !! 0 = Some df' ∧
    (∀ r', r' ≠ 0 → h' !! r' = one_point_store !! r') ∧
    nrows df' = nrows (chart_frame [(0%Z, QcZ 1)]) ∧
    (∀ key, key ∉ ["SMA20"; "SMA50"; "EMA20"; "RSI"] →
       columns df' !! key = columns (chart_frame [(0%Z, QcZ 1)]) !! key) ∧
    columns df' !! "SMA20" = Some (rolling_mean 20 [Fin (QcZ 1)]) ∧
    columns df' !! "SMA50" = Some (rolling_mean 50 [Fin (QcZ 1)]) ∧
    columns df' !! "EMA20" = Some (ewm_mean 20 [Fin (QcZ 1)]) ∧
    columns df' !! "RSI" = Some (rsi_series [Fin (QcZ 1)]).
Proof.
  apply (add_indicators_in_place one_point_store 0
           (chart_frame [(0%Z, QcZ 1)]) [Fin (QcZ 1)]).
  - vm_compute. reflexivity.
  - vm_compute. reflexivity.
Defined.

(** C4, the claim as stated fails: the caller's frame after the call
    differs from the frame before the call. *)
Lemma add_indicators_changes_input :
  (add_indicators 0 one_point_store).1 !! 0 ≠ one_point_store !! 0.
Proof. compute_done. Qed.

End IndicatorEngine.

(** ** RSI *)

Section RSI.

Implicit Types (s : Series) (g l x : float64).










Lemma length_diff s : length (diff s) = length s.
Proof.
  destruct s as [|x s]; [done|]. simpl. f_equal.
  rewrite length_zip_with. simpl. lia.
Qed.

Lemma length_avg_gain s : length (avg_gain s) = length s.
Proof.
  unfold avg_gain, clip_lower. by rewrite length_rolling_mean, length_fmap.
Qed.

Lemma length_avg_loss s : length (avg_loss s) = length s.
Proof.
  unfold avg_loss, sneg, clip_upper.
  by rewrite length_fmap, length_rolling_mean, length_fmap.
Qed.

Lemma length_rsi_series s : length (rsi_series s) = length s.
Proof.
  unfold rsi_series, rsi_of_rs, rsub, rdiv, radd, sdiv.
  rewrite !length_fmap, length_zip_with, length_avg_gain, length_avg_loss,
    length_diff. lia.
Qed.




Lemma rsi_point_flat : rsi_point (Fin 0) (Fin 0) = NaN.
Proof. reflexivity. Qed.



Lemma lookup_finite_nonneg s i x :
  Forall (nan_or (λ q, 0 <= q)) s → s !! i = Some x → nan_or (λ q, 0 <= q) x.
Proof. intros Hs Hx. by eapply Forall_lookup_1. Qed.

End RSI.

(** ** EMA: defined from the first index on *)

Section EMA.





Lemma length_ewm_loop span st vals : length (ewm_loop span st vals) = length vals.
Proof.
  revert st. induction vals as [|c vals IH]; intros st; simpl; [done|].
  by rewrite IH.
Qed.

Lemma length_ewm_mean span vals : length (ewm_mean span vals) = length vals.
Proof.
  destruct vals as [|v vals]; simpl; [done|]. by rewrite length_ewm_loop.
Qed.

End EMA.

(** ** RSI column of the indicator frame *)

Section RSIColumn.

Local Open Scope nat_scope.


Lemma rsi_point_nan_gain l : rsi_point NaN l = NaN.
Proof. reflexivity. Qed.













(** On twenty-one rising prices every delta in the last window is a
    gain, and the RSI there is exactly 100. *)
Example rsi_all_gains :
  (df ← indicator_frame rising_21; Some (at_row df "RSI" 20))
  = Some (Ok (of_Z 100)).
Proof. compute_done. Qed.

(** C2, the claim as stated fails: on fifteen equal prices the rolling
    average loss at index 14 is zero, and the RSI there is undefined
    instead of 100. *)
Lemma rsi_flat_window_undefined :
  avg_loss (diff (price_series flat_15)) !! 14 = Some (Fin 0%Qc) ∧
  (df ← indicator_frame flat_15; Some (at_row df "RSI" 14)) = Some (Ok NaN).
Proof. split; compute_done. Qed.

End RSIColumn.

(** ** Signal Engine *)

Section SignalEngine.

Implicit Types (df : DataFrame) (a b p e r : float64).

Lemma ai_signal_eval df a b p e r :
  last_of df "SMA20" = Ok a → last_of df "SMA50" = Ok b →
  last_of df "price" = Ok p → last_of df "EMA20" = Ok e →
  last_of df "RSI" = Ok r →
  ai_signal df = Ok (classify (float_score a b p e r), float_score a b p e r).
Proof.
  intros Ha Hb Hp He Hr. unfold ai_signal, float_score.
  rewrite Ha, Hb, Hp, He, Hr. cbn [mbind result_bind].
  destruct (gt a b), (gt p e), (lt r (of_Z 30)), (gt r (of_Z 70)); reflexivity.
Qed.

Lemma classify_cases (score : Z) :
  (classify score = "BUY" ↔ (2 ≤ score)%Z) ∧
  (classify score = "SELL" ↔ (score ≤ -1)%Z) ∧
  (classify score = "HOLD" ↔ (-1 < score < 2)%Z).
Proof.
  unfold classify.
  destruct (2 <=? score)%Z eqn:H2; [apply Z.leb_le in H2 | apply Z.leb_gt in H2].
  - split_and!; split; (done || lia).
  - destruct (score <=? -1)%Z eqn:H1;
      [apply Z.leb_le in H1 | apply Z.leb_gt in H1];
      split_and!; split; (done || lia).
Qed.

Lemma float_score_defined (s20 s50 p e r : Qc) :
  float_score (Fin s20) (Fin s50) (Fin p) (Fin e) (Fin r) =
  spec_score s20 s50 p e r.
Proof. reflexivity. Qed.


(** The value [ai_signal] reads from a column is the one in its last
    row, at index [length - 1]. *)
Lemma last_of_last_row df key (s : Series) (x : float64) :
  getitem df key = Ok s → s !! (length s - 1)%nat = Some x →
  last_of df key = Ok x.
Proof.
  intros Hs Hx. unfold last_of. rewrite Hs. cbn [mbind result_bind].
  unfold iloc_last. rewrite last_lookup.
  replace (Nat.pred (length s)) with (length s - 1)%nat by lia. by rewrite Hx.
Qed.

(** C7: when the last row of the frame, the row at index [length - 1]
    of each column, has all four indicators (and the price) defined,
    the score is the sum of +1 if SMA20 > SMA50, +1 if price > EMA20,
    +1 if RSI < 30 and -1 if RSI > 70 of the values in that row, and
    the signal is BUY iff score >= 2, SELL iff score <= -1 and HOLD
    otherwise. *)
Theorem ai_signal_score df (c20 c50 cp ce cr : Series) (s20 s50 p e r : Qc) :
  getitem df "SMA20" = Ok c20 → c20 !! (length c20 - 1)%nat = Some (Fin s20) →
  getitem df "SMA50" = Ok c50 → c50 !! (length c50 - 1)%nat = Some (Fin s50) →
  getitem df "price" = Ok cp → cp !! (length cp - 1)%nat = Some (Fin p) →
  getitem df "EMA20" = Ok ce → ce !! (length ce - 1)%nat = Some (Fin e) →
  getitem df "RSI" = Ok cr → cr !! (length cr - 1)%nat = Some (Fin r) →
  ∃ signal : string,
    ai_signal df = Ok (signal, spec_score s20 s50 p e r) ∧
    (signal = "BUY" ↔ (2 ≤ spec_score s20 s50 p e r)%Z) ∧
    (signal = "SELL" ↔ (spec_score s20 s50 p e r ≤ -1)%Z) ∧
    (signal = "HOLD" ↔ (-1 < spec_score s20 s50 p e r < 2)%Z).
Proof.
  intros G20 H20 G50 H50 Gp Hp Ge He Gr Hr.
  exists (classify (spec_score s20 s50 p e r)). split.
  - rewrite (ai_signal_eval df (Fin s20) (Fin s50) (Fin p) (Fin e) (Fin r));
      [by rewrite float_score_defined|..]; by eapply last_of_last_row.
  - apply classify_cases.
Qed.

Lemma ai_signal_score_witness :
  ∃ signal : string,
    ai_signal example_rows
      = Ok (signal, spec_score (QcZ 105) (QcZ 100) (QcZ 106) (QcZ 104) (QcZ 50)) ∧
    (signal = "BUY" ↔
       (2 ≤ spec_score (QcZ 105) (QcZ 100) (QcZ 106) (QcZ 104) (QcZ 50))%Z) ∧
    (signal = "SELL" ↔
       (spec_score (QcZ 105) (QcZ 100) (QcZ 106) (QcZ 104) (QcZ 50) ≤ -1)%Z) ∧
    (signal = "HOLD" ↔
       (-1 < spec_score (QcZ 105) (QcZ 100) (QcZ 106) (QcZ 104) (QcZ 50) < 2)%Z).
Proof.
  apply (ai_signal_score example_rows
           [of_Z 90; of_Z 95; of_Z 105] [of_Z 100; of_Z 100; of_Z 100]
           [of_Z 100; of_Z 102; of_Z 106] [of_Z 110; of_Z 101; of_Z 104]
           [of_Z 80; of_Z 50; of_Z 50]);
    vm_compute; reflexivity.
Defined.

(** The row matters: the first and the second row of that frame would
    score -1 and 1, and the engine answers from the third. *)
Example ai_signal_reads_last_row :
  ai_signal example_rows = Ok ("BUY", 2%Z) ∧
  spec_score (QcZ 90) (QcZ 100) (QcZ 100) (QcZ 110) (QcZ 80) = (-1)%Z ∧
  spec_score (QcZ 95) (QcZ 100) (QcZ 102) (QcZ 101) (QcZ 50) = 1%Z.
Proof. split_and!; vm_compute; reflexivity. Qed.

(** The worked examples of the specification. *)
Example ai_signal_example_buy : ai_signal example_frame = Ok ("BUY", 2%Z).
Proof. vm_compute. reflexivity. Qed.

(** On an empty series there is no last row to read. *)
Example ai_signal_empty :
  (df ← indicator_frame []; Some (ai_signal df)) = Some (Raise IndexError).
Proof. vm_compute. reflexivity. Qed.

Example spec_score_sell :
  spec_score (QcZ 99) (QcZ 100) (QcZ 99) (QcZ 100) (QcZ 75) = (-1)%Z ∧
  classify (-1) = "SELL".
Proof. split; vm_compute; reflexivity. Qed.

Example spec_score_hold :
  spec_score (QcZ 100) (QcZ 100) (QcZ 100) (QcZ 100) (QcZ 50) = 0%Z ∧
  classify 0 = "HOLD".
Proof. split; vm_compute; reflexivity. Qed.

End SignalEngine.

(** ** The Signal Engine on undefined indicators *)

Section SignalUndefined.

Local Open Scope nat_scope.

Lemma last_of_eval (df : DataFrame) (key : string) (s : Series) (x : float64) :
  getitem df key = Ok s → s !! (length s - 1) = Some x →
  last_of df key = Ok x.
Proof.
  intros Hs Hx. unfold last_of. rewrite Hs. cbn [mbind result_bind].
  unfold iloc_last. rewrite last_lookup.
  replace (Nat.pred (length s)) with (length s - 1) by lia. by rewrite Hx.
Qed.






End SignalUndefined.

(** ** Backtest Engine *)

Section Backtest.

Local Open Scope nat_scope.
Implicit Types (df : DataFrame) (st : portfolio) (data : list (Z * Qc)).

Lemma for_each_invariant {A S : Type} (I : S → Prop)
    (body : S → A → result S) (xs : list A) (s : S) :
  I s →
  (∀ s x, x ∈ xs → I s → ∃ s', body s x = Ok s' ∧ I s') →
  ∃ s', for_each body xs s = Ok s' ∧ I s'.
Proof.
  revert s. induction xs as [|x xs IH]; intros s Hs Hbody; simpl.
  - by exists s.
  - destruct (Hbody s x) as (s1 & -> & Hs1); [by left | done |].
    cbn [mbind result_bind]. apply IH; [done|].
    intros s2 y Hy. apply Hbody. by right.
Qed.

Lemma at_row_eval df key (s : Series) i x :
  getitem df key = Ok s → s !! i = Some x → at_row df key i = Ok x.
Proof.
  intros Hs Hx. unfold at_row. rewrite Hs. cbn [mbind result_bind].
  unfold iloc. by rewrite Hx.
Qed.

(** The three values a step reads exist at every row of the frame. *)
Lemma indicator_frame_rows data i :
  i < length data →
  ∃ (a b : float64) (q : Qc),
    at_row (with_indicators (price_series data) (chart_frame data)) "SMA20" i = Ok a ∧
    at_row (with_indicators (price_series data) (chart_frame data)) "SMA50" i = Ok b ∧
    at_row (with_indicators (price_series data) (chart_frame data)) "price" i
      = Ok (Fin q) ∧
    (snd <$> data) !! i = Some q.
Proof.
  intros Hi.
  assert (Hlen : length (snd <$> data) = length data) by (by rewrite length_fmap).
  destruct ((snd <$> data) !! i) as [q|] eqn:Hq.
  2: { apply lookup_ge_None in Hq. lia. }
  exists (spec_SMA 20 (snd <$> data) i), (spec_SMA 50 (snd <$> data) i), q.
  split_and!.
  - eapply at_row_eval; [apply with_indicators_SMA20|].
    rewrite price_series_prices. apply rolling_mean_prices; lia.
  - eapply at_row_eval; [apply with_indicators_SMA50|].
    rewrite price_series_prices. apply rolling_mean_prices; lia.
  - eapply at_row_eval; [apply with_indicators_price|].
    by rewrite price_series_prices, list_lookup_fmap, Hq.
  - done.
Qed.

Lemma nrows_indicator_frame data :
  nrows (with_indicators (price_series data) (chart_frame data)) = length data.
Proof. reflexivity. Qed.

(** A flat portfolio stays as it is on a row where SMA20 is not above
    SMA50. *)
Lemma backtest_step_flat df st i :
  sma_above df i = Ok false → coin_amt st = of_Z 0 →
  backtest_step df st i = Ok st.
Proof.
  intros Habove Hflat. unfold sma_above in Habove. unfold backtest_step.
  destruct (at_row df "SMA20" i) as [a|]; [|done].
  destruct (at_row df "SMA50" i) as [b|]; [|done].
  cbn [mbind result_bind] in *. injection Habove as ->.
  rewrite Hflat. cbn [andb].
  replace (gt (of_Z 0) (of_Z 0)) with false by (symmetry; vm_compute; reflexivity).
  by rewrite andb_false_r.
Qed.

(** C6: when no row i with 50 <= i < N has SMA20[i] > SMA50[i], in
    particular whenever the series has fewer than 50 points, the
    backtest makes no trade (after every number [k] of iterations the
    portfolio is the starting one) and returns exactly the starting cash
    1000, which is also the number shown. *)
Theorem backtest_without_cross data df :
  indicator_frame data = Some df →
  (length data < 50 ∨
   ∀ i, 50 ≤ i < length data → sma_above df i = Ok false) →
  (∀ k, k ≤ length data - 50 →
     for_each (backtest_step df) (seq 50 k) backtest_start = Ok backtest_start) ∧
  backtest_loop df = Ok backtest_start ∧
  backtest df = Ok (of_Z 1000) ∧
  backtest_shown df = Ok (of_Z 1000).
Proof.
  intros Hdf Hcross.
  assert (Hno : ∀ i, 50 ≤ i < length data → sma_above df i = Ok false).
  { destruct Hcross as [Hshort|Hno]; [intros i Hi; lia | done]. }
  rewrite indicator_frame_eq in Hdf. injection Hdf as <-.
  set (df := with_indicators (price_series data) (chart_frame data)) in *.
  assert (Hsteps : ∀ k, k ≤ length data - 50 →
            for_each (backtest_step df) (seq 50 k) backtest_start
            = Ok backtest_start).
  { intros k Hk.
    destruct (for_each_invariant (λ st, st = backtest_start)
                (backtest_step df) (seq 50 k) backtest_start)
      as (st & Hrun & ->); [done| |done].
    intros st i Hi ->. exists backtest_start. split; [|done].
    apply elem_of_seq in Hi. apply backtest_step_flat; [|done].
    apply Hno. lia. }
  assert (Hloop : backtest_loop df = Ok backtest_start).
  { unfold backtest_loop. change (nrows df) with (length data).
    by apply Hsteps. }
  assert (Hfinal : backtest df = Ok (of_Z 1000)).
  { unfold backtest. rewrite Hloop. reflexivity. }
  split_and!; [done..|].
  unfold backtest_shown. rewrite Hfinal. cbn [mbind result_bind].
  compute_done.
Qed.

Lemma backtest_without_cross_witness :
  (∀ k, k ≤ length falling_60 - 50 →
     for_each (backtest_step (with_indicators (price_series falling_60)
                                (chart_frame falling_60)))
              (seq 50 k) backtest_start = Ok backtest_start) ∧
  backtest_loop (with_indicators (price_series falling_60) (chart_frame falling_60))
    = Ok backtest_start ∧
  backtest (with_indicators (price_series falling_60) (chart_frame falling_60))
    = Ok (of_Z 1000) ∧
  backtest_shown (with_indicators (price_series falling_60) (chart_frame falling_60))
    = Ok (of_Z 1000).
Proof.
  apply (backtest_without_cross falling_60).
  - vm_compute. reflexivity.
  - right. intros i Hi.
    assert (Hin : i ∈ seq 50 10) by (apply elem_of_seq; vm_compute in Hi; lia).
    clear Hi. revert i Hin. apply Forall_forall. vm_compute.
    repeat constructor.
Defined.







End Backtest.

(** ** Risk Calculator *)

Section RiskCalculator.

Lemma risk_reward_zero_risk (entry tp : Qc) :
  0 < entry → 0 < tp → risk_reward entry entry tp = Raise ZeroDivisionError.
Proof.
  intros He Ht. unfold risk_reward.
  rewrite !(proj2 (Qcltb_true _ _)) by done. cbn [andb].
  unfold py_div. replace (entry - entry) with 0 by ring.
  by rewrite (proj2 (Qceqb_true 0 0)).
Qed.

(** C3: with entry = stop-loss = 100 and take-profit = 130 (all
    positive) the division raises [ZeroDivisionError]; no ratio, defined
    or undefined, is reported. *)
Theorem risk_reward_equal_stop_raises :
  risk_reward (QcZ 100) (QcZ 100) (QcZ 130) = Raise ZeroDivisionError.
Proof. vm_compute. reflexivity. Qed.

(** The worked example of the specification: risk 10, reward 30. *)
Example risk_reward_example :
  risk_reward (QcZ 100) (QcZ 90) (QcZ 130) = Ok (Some (QcZ 3)).
Proof. compute_done. Qed.

(** Inputs that are not all positive skip the computation. *)
Example risk_reward_skipped :
  risk_reward (QcZ 100) 0 (QcZ 130) = Ok None.
Proof. compute_done. Qed.

End RiskCalculator.

(** ** Trade Log Store *)

Section TradeLogStore.

Import TradeLog.

Variable json_dumps : list Trade → string.
Variable json_loads : string → result (list Trade).

Lemma prefix_substring (n : nat) (s : string) :
  String.prefix (String.substring 0 n s) s = true.
Proof.
  revert n. induction s as [|c s IH]; intros [|n]; simpl; try done.
  destruct (Ascii.ascii_dec c c); [apply IH | done].
Qed.

(** C9: from a store whose log reads as [old], saving a trade and
    loading again yields [old] followed by exactly that trade; and a
    store in which nothing was ever saved loads as the empty sequence.
    The encoder and decoder are the [json] library's: the one fact used
    about them is that the new log survives the round trip. *)
Theorem append_then_load (fs : filesystem) (old : list Trade)
    (coin_name t_type : string) (amt tprice : Qc) :
  load_trades json_loads fs = Ok old →
  json_loads (json_dumps (old ++ [MkTrade coin_name t_type amt tprice]))
    = Ok (old ++ [MkTrade coin_name t_type amt tprice]) →
  (∃ (fs' : filesystem) (new : list Trade),
     trade_speichern json_dumps json_loads NoFault coin_name t_type amt tprice fs
       = (fs', Ok tt) ∧
     load_trades json_loads fs' = Ok new ∧
     new = old ++ [MkTrade coin_name t_type amt tprice] ∧
     last new = Some (MkTrade coin_name t_type amt tprice) ∧
     take (length old) new = old) ∧
  load_trades json_loads (FS None) = Ok [].
Proof.
  intros Hold Hround. split; [|done].
  exists (FS (Some (json_dumps (old ++ [MkTrade coin_name t_type amt tprice])))),
         (old ++ [MkTrade coin_name t_type amt tprice]).
  split_and!.
  - unfold trade_speichern. by rewrite Hold.
  - unfold load_trades. simpl. exact Hround.
  - done.
  - apply last_snoc.
  - by rewrite take_app_length.
Qed.

(** C5 (as amended): a save that fails because the file cannot be
    opened leaves the stored log unchanged; a save that fails after the
    file was opened leaves in the file only a prefix of the new log's
    text, whatever was stored before. *)
Theorem failed_save_outcome (fault : io_fault) (trades : list Trade)
    (fs fs' : filesystem) (e : exn) :
  save_trades json_dumps fault trades fs = (fs', Raise e) →
  (fault = OpenFails ∧ fs' = fs) ∨
  (∃ (written : nat) (text : string),
     fault = WriteFails written ∧
     data_file fs' = Some text ∧
     text = String.substring 0 written (json_dumps trades) ∧
     String.prefix text (json_dumps trades) = true).
Proof.
  intros Hsave. destruct fault as [| |written]; simpl in Hsave.
  - done.
  - left. by injection Hsave as <- _.
  - right. injection Hsave as <- _.
    exists written, (String.substring 0 written (json_dumps trades)).
    split_and!; try done. apply prefix_substring.
Qed.

End TradeLogStore.

Section TradeLogExamples.

Import TradeLog.

Lemma append_then_load_witness :
  (∃ (fs' : filesystem) (new : list Trade),
     trade_speichern sexp_dumps sexp_loads NoFault
       "Ethereum" "SELL" (QcZ 2) (QcZ 50) one_trade_file = (fs', Ok tt) ∧
     load_trades sexp_loads fs' = Ok new ∧
     new = [trade_1] ++ [MkTrade "Ethereum" "SELL" (QcZ 2) (QcZ 50)] ∧
     last new = Some (MkTrade "Ethereum" "SELL" (QcZ 2) (QcZ 50)) ∧
     take (length [trade_1]) new = [trade_1]) ∧
  load_trades sexp_loads (FS None) = Ok [].
Proof.
  apply (append_then_load sexp_dumps sexp_loads one_trade_file [trade_1]).
  - vm_compute. reflexivity.
  - vm_compute. reflexivity.
Defined.

Lemma failed_save_outcome_witness :
  (WriteFails 10 = OpenFails ∧
   FS (Some (String.substring 0 10 (sexp_dumps [trade_1; trade_2])))
     = one_trade_file) ∨
  (∃ (written : nat) (text : string),
     WriteFails 10 = WriteFails written ∧
     data_file (FS (Some (String.substring 0 10 (sexp_dumps [trade_1; trade_2]))))
       = Some text ∧
     text = String.substring 0 written (sexp_dumps [trade_1; trade_2]) ∧
     String.prefix text (sexp_dumps [trade_1; trade_2]) = true).
Proof.
  apply (failed_save_outcome sexp_dumps (WriteFails 10) [trade_1; trade_2]
           one_trade_file _ OSError).
  vm_compute. reflexivity.
Defined.

(** C5, the claim as stated fails: the file held a log of one trade;
    a save of two trades that fails after ten characters leaves a file
    that differs from the one before and no longer loads. *)
Lemma failed_save_loses_log :
  load_trades sexp_loads one_trade_file = Ok [trade_1] ∧
  (save_trades sexp_dumps (WriteFails 10) [trade_1; trade_2] one_trade_file).2
    = Raise OSError ∧
  (save_trades sexp_dumps (WriteFails 10) [trade_1; trade_2] one_trade_file).1
    ≠ one_trade_file ∧
  load_trades sexp_loads
    (save_trades sexp_dumps (WriteFails 10) [trade_1; trade_2] one_trade_file).1
    = Raise JSONDecodeError.
Proof. split_and!; compute_done. Qed.

End TradeLogExamples.


(** * Further properties of the code *)

(** ** The store after [add_indicators]: missing column, second run, alignment *)

Section StoreMore.

Implicit Types (h : heap) (r : ref) (df : DataFrame) (p : Series).
Local Open Scope nat_scope.

(** Without a [price] column [add_indicators] raises
    [KeyError("price")] at its first statement and leaves the store as
    it was. *)
Theorem add_indicators_missing_price h r df :
  h !! r = Some df → columns df !! "price" = None →
  add_indicators r h = (h, Raise (KeyError "price")).
Proof.
  intros Hr Hp.
  unfold add_indicators, mbind, M_bind, bind_M.
  rewrite (ref_getitem_run _ _ _ _ Hr). unfold getitem. by rewrite Hp.
Qed.

Lemma add_indicators_missing_price_witness :
  add_indicators 0 no_price_store = (no_price_store, Raise (KeyError "price")).
Proof.
  apply (add_indicators_missing_price no_price_store 0
           (Frame 1 (<["time" := [of_Z 0]]> ∅))).
  - vm_compute. reflexivity.
  - vm_compute. reflexivity.
Defined.

Lemma with_indicators_idem p df :
  with_indicators p (with_indicators p df) = with_indicators p df.
Proof.
  unfold with_indicators, setitem. simpl. f_equal.
  apply map_eq. intros key.
  destruct (decide (key = "RSI")) as [->|?]; [by rewrite !lookup_insert_eq|].
  rewrite !(lookup_insert_ne _ "RSI") by done.
  destruct (decide (key = "EMA20")) as [->|?]; [by rewrite !lookup_insert_eq|].
  rewrite !(lookup_insert_ne _ "EMA20") by done.
  destruct (decide (key = "SMA50")) as [->|?]; [by rewrite !lookup_insert_eq|].
  rewrite !(lookup_insert_ne _ "SMA50") by done.
  destruct (decide (key = "SMA20")) as [->|?]; [by rewrite !lookup_insert_eq|].
  by rewrite !lookup_insert_ne by done.
Qed.

(** Running [add_indicators] a second time on the same frame changes
    nothing: the four columns are recomputed from the untouched price
    column and overwritten with the same values. *)
Theorem add_indicators_twice h r df p :
  h !! r = Some df → columns df !! "price" = Some p →
  ∃ h1 : heap,
    add_indicators r h = (h1, Ok r) ∧ add_indicators r h1 = (h1, Ok r).
Proof.
  intros Hr Hp. exists (<[r := with_indicators p df]> h). split.
  - by apply add_indicators_run.
  - rewrite (add_indicators_run _ r (with_indicators p df) p).
    + by rewrite insert_insert_eq, with_indicators_idem.
    + apply lookup_insert_eq.
    + rewrite with_indicators_other; [done|].
      rewrite !not_elem_of_cons. repeat split; (done || apply not_elem_of_nil).
Qed.

Lemma add_indicators_twice_witness :
  ∃ h1 : heap,
    add_indicators 0 one_point_store = (h1, Ok 0) ∧
    add_indicators 0 h1 = (h1, Ok 0).
Proof.
  apply (add_indicators_twice one_point_store 0
           (chart_frame [(0%Z, QcZ 1)]) [Fin (QcZ 1)]).
  - vm_compute. reflexivity.
  - vm_compute. reflexivity.
Defined.

(** Whatever the price column holds, the four indicator columns have
    exactly its length, and the row count is kept. *)
Theorem indicator_columns_aligned h r df p :
  h !! r = Some df → columns df !! "price" = Some p →
  ∃ (h' : heap) (df' : DataFrame) (sma20 sma50 ema20 rsi : Series),
    add_indicators r h = (h', Ok r) ∧ h' !! r = Some df' ∧
    nrows df' = nrows df ∧
    getitem df' "price" = Ok p ∧
    getitem df' "SMA20" = Ok sma20 ∧ length sma20 = length p ∧
    getitem df' "SMA50" = Ok sma50 ∧ length sma50 = length p ∧
    getitem df' "EMA20" = Ok ema20 ∧ length ema20 = length p ∧
    getitem df' "RSI" = Ok rsi ∧ length rsi = length p.
Proof.
  intros Hr Hp.
  exists (<[r := with_indicators p df]> h), (with_indicators p df),
         (rolling_mean 20 p), (rolling_mean 50 p), (ewm_mean 20 p), (rsi_series p).
  split_and!.
  - by apply add_indicators_run.
  - apply lookup_insert_eq.
  - done.
  - unfold getitem. rewrite with_indicators_other, Hp; [done|].
    rewrite !not_elem_of_cons. repeat split; (done || apply not_elem_of_nil).
  - apply with_indicators_SMA20.
  - apply length_rolling_mean.
  - apply with_indicators_SMA50.
  - apply length_rolling_mean.
  - apply with_indicators_EMA20.
  - apply length_ewm_mean.
  - apply with_indicators_RSI.
  - apply length_rsi_series.
Qed.

Lemma indicator_columns_aligned_witness :
  ∃ (h' : heap) (df' : DataFrame) (sma20 sma50 ema20 rsi : Series),
    add_indicators 0 one_point_store = (h', Ok 0) ∧ h' !! 0 = Some df' ∧
    nrows df' = nrows (chart_frame [(0%Z, QcZ 1)]) ∧
    getitem df' "price" = Ok [Fin (QcZ 1)] ∧
    getitem df' "SMA20" = Ok sma20 ∧ length sma20 = length [Fin (QcZ 1)] ∧
    getitem df' "SMA50" = Ok sma50 ∧ length sma50 = length [Fin (QcZ 1)] ∧
    getitem df' "EMA20" = Ok ema20 ∧ length ema20 = length [Fin (QcZ 1)] ∧
    getitem df' "RSI" = Ok rsi ∧ length rsi = length [Fin (QcZ 1)].
Proof.
  apply (indicator_columns_aligned one_point_store 0
           (chart_frame [(0%Z, QcZ 1)]) [Fin (QcZ 1)]).
  - vm_compute. reflexivity.
  - vm_compute. reflexivity.
Defined.

End StoreMore.

(** ** EMA: the kernel against the weighted mean, and its range *)

Section EMAMore.

Local Open Scope Qc_scope.









End EMAMore.

(** ** Moving averages stay within the range of the prices *)

Section AverageRange.

Local Open Scope Qc_scope.










End AverageRange.

(** ** RSI: the two rolling averages against the specification's words *)

Section RSIMore.

Local Open Scope nat_scope.





















End RSIMore.

(** ** Signal Engine: range of the score, vetoes, missing columns *)

Section SignalMore.

Implicit Types (df : DataFrame) (a b p e r : float64).

(** The two RSI rules exclude each other. *)
Lemma rsi_rules_exclusive r :
  lt r (of_Z 30) = true → gt r (of_Z 70) = false.
Proof.
  destruct r as [| [|] | q]; try done. unfold gt, of_Z. cbn [lt].
  intros H30%Qcltb_true. apply Qcltb_false.
  assert (H : (QcZ 30 <= QcZ 70)%Qc) by (apply Qcltb_false; vm_compute; reflexivity).
  apply Qclt_le_weak. by eapply Qclt_le_trans.
Qed.

(** Whatever the five values read at the last row (undefined ones
    included), the score lies between -1 and 3; SELL is returned exactly
    when RSI > 70 and neither of the two trend rules fires; and BUY is
    never returned while RSI > 70. *)
Theorem ai_signal_score_range df a b p e r :
  last_of df "SMA20" = Ok a → last_of df "SMA50" = Ok b →
  last_of df "price" = Ok p → last_of df "EMA20" = Ok e →
  last_of df "RSI" = Ok r →
  ∃ (signal : string) (score : Z),
    ai_signal df = Ok (signal, score) ∧
    (-1 ≤ score ≤ 3)%Z ∧
    (signal = "SELL" ↔
       gt r (of_Z 70) = true ∧ gt a b = false ∧ gt p e = false) ∧
    (gt r (of_Z 70) = true → signal ≠ "BUY") ∧
    (signal = "BUY" ↔
       (gt a b = true ∧ gt p e = true ∧ gt r (of_Z 70) = false) ∨
       (lt r (of_Z 30) = true ∧ (gt a b = true ∨ gt p e = true))).
Proof.
  intros Ha Hb Hp He Hr.
  exists (classify (float_score a b p e r)), (float_score a b p e r).
  split; [by apply ai_signal_eval|].
  pose proof (rsi_rules_exclusive r) as Hex. unfold float_score.
  destruct (gt a b), (gt p e), (lt r (of_Z 30)), (gt r (of_Z 70));
    try (by specialize (Hex eq_refl));
    (split_and!; [lia | lia | split; [intros Hs; try discriminate Hs; done
                                     | intros (? & ? & ?); done]
                 | try done; intros _; discriminate
                 | split; [intros Hs; try discriminate Hs; tauto
                          | intros [(? & ? & ?) | (? & [?|?])]; done]]).
Qed.

Lemma ai_signal_score_range_witness :
  ∃ (signal : string) (score : Z),
    ai_signal example_frame = Ok (signal, score) ∧
    (-1 ≤ score ≤ 3)%Z ∧
    (signal = "SELL" ↔
       gt (of_Z 50) (of_Z 70) = true ∧ gt (of_Z 105) (of_Z 100) = false ∧
       gt (of_Z 106) (of_Z 104) = false) ∧
    (gt (of_Z 50) (of_Z 70) = true → signal ≠ "BUY") ∧
    (signal = "BUY" ↔
       (gt (of_Z 105) (of_Z 100) = true ∧ gt (of_Z 106) (of_Z 104) = true ∧
        gt (of_Z 50) (of_Z 70) = false) ∨
       (lt (of_Z 50) (of_Z 30) = true ∧
        (gt (of_Z 105) (of_Z 100) = true ∨ gt (of_Z 106) (of_Z 104) = true))).
Proof.
  apply (ai_signal_score_range example_frame); vm_compute; reflexivity.
Defined.

(** On the frame [get_chart] returns, before [add_indicators] has run,
    [ai_signal] raises [KeyError("SMA20")], whatever the data. *)
Theorem ai_signal_needs_indicators (data : list (Z * Qc)) :
  ai_signal (chart_frame data) = Raise (KeyError "SMA20").
Proof. reflexivity. Qed.

End SignalMore.

(** ** Backtest Engine: no exceptions, no fees, buy and hold *)

Section BacktestMore.

Local Open Scope nat_scope.
Implicit Types (df : DataFrame) (st : portfolio) (data : list (Z * Qc)).

Lemma backtest_step_returns df st i (a b p : float64) :
  at_row df "SMA20" i = Ok a → at_row df "SMA50" i = Ok b →
  at_row df "price" i = Ok p →
  ∃ st', backtest_step df st i = Ok st'.
Proof.
  intros Ha Hb Hp. unfold backtest_step. rewrite Ha, Hb, Hp.
  cbn [mbind result_bind].
  destruct (gt a b && eqb (coin_amt st) (of_Z 0)); [by eexists|].
  destruct (lt a b && gt (coin_amt st) (of_Z 0)); by eexists.
Qed.

(** Once the page has built its frame, the backtest on it never
    raises, whatever the prices are (zero and negative prices included)
    and however many points there are: it returns a value, and so does
    the rounding for the display. *)
Theorem backtest_never_raises data df :
  indicator_frame data = Some df →
  ∃ final shown : float64,
    backtest df = Ok final ∧ backtest_shown df = Ok shown.
Proof.
  intros Hdf. rewrite indicator_frame_eq in Hdf. injection Hdf as <-.
  set (df := with_indicators (price_series data) (chart_frame data)).
  assert (Hfinal : ∃ final, backtest df = Ok final).
  { destruct (for_each_invariant (λ _, True) (backtest_step df)
                (seq 50 (length data - 50)) backtest_start)
      as (st & Hst & _); [done| |].
    { intros st i Hi _. apply elem_of_seq in Hi.
      destruct (indicator_frame_rows data i) as (a & b & q & Ha & Hb & Hp & _);
        [lia|].
      destruct (backtest_step_returns df st i a b (Fin q)) as [st' Hst'];
        [done..|]. by exists st'. }
    unfold backtest, backtest_loop. change (nrows df) with (length data).
    rewrite Hst. cbn [mbind result_bind]. unfold backtest_final.
    destruct (gt (cash st) (of_Z 0)) eqn:Hgt; [by eexists|].
    destruct (decide (length data = 0)) as [Hz|Hnz].
    - rewrite Hz in Hst. simpl in Hst. injection Hst as <-.
      vm_compute in Hgt. discriminate.
    - destruct (indicator_frame_rows data (length data - 1))
        as (_ & _ & q & _ & _ & _ & Hq); [lia|].
      assert (Hlast : last_of df "price" = Ok (Fin q)).
      { eapply last_of_eval; [apply with_indicators_price|].
        unfold price_series at 1. rewrite length_fmap.
        by rewrite price_series_prices, list_lookup_fmap, Hq. }
      rewrite Hlast. by eexists. }
  destruct Hfinal as [final Hfinal].
  exists final, (round2_float final). split.
  - done.
  - unfold backtest_shown. by rewrite Hfinal.
Qed.

Lemma backtest_never_raises_witness :
  ∃ final shown : float64,
    backtest (with_indicators (price_series rise_fall_120)
                (chart_frame rise_fall_120)) = Ok final ∧
    backtest_shown (with_indicators (price_series rise_fall_120)
                      (chart_frame rise_fall_120)) = Ok shown.
Proof.
  apply (backtest_never_raises rise_fall_120).
  vm_compute. reflexivity.
Defined.

(** Before [add_indicators] has run the frame has no SMA columns: with
    at most 50 rows the loop body never executes and the backtest
    returns the starting cash; with more rows the first iteration raises
    [KeyError("SMA20")]. *)
Theorem backtest_without_indicators data :
  (length data ≤ 50 → backtest (chart_frame data) = Ok (of_Z 1000)) ∧
  (50 < length data → backtest (chart_frame data) = Raise (KeyError "SMA20")).
Proof.
  split; intros Hlen; unfold backtest, backtest_loop;
    change (nrows (chart_frame data)) with (length data).
  - by replace (length data - 50) with 0 by lia.
  - destruct (length data - 50) as [|n] eqn:Hn; [lia|]. reflexivity.
Qed.





End BacktestMore.

(** ** Risk Calculator: every outcome *)

Section RiskMore.

Local Open Scope Qc_scope.

Lemma Qcminus_eq_0 (a b : Qc) : a - b = 0 ↔ a = b.
Proof.
  split.
  - intros H. replace a with (a - b + b) by ring. rewrite H. ring.
  - intros ->. ring.
Qed.

(** The three outcomes of the tool: it raises [ZeroDivisionError]
    exactly when all three inputs are positive and entry equals
    stop-loss; it shows nothing exactly when some input is not positive;
    otherwise it shows a number.  Which number is shown is not part of
    the statement. *)
Theorem risk_reward_outcomes (entry sl tp : Qc) :
  (risk_reward entry sl tp = Raise ZeroDivisionError ↔
     0 < entry ∧ 0 < sl ∧ 0 < tp ∧ entry = sl) ∧
  (risk_reward entry sl tp = Ok None ↔ ¬ (0 < entry ∧ 0 < sl ∧ 0 < tp)) ∧
  ((∃ shown, risk_reward entry sl tp = Ok (Some shown)) ↔
     0 < entry ∧ 0 < sl ∧ 0 < tp ∧ entry ≠ sl).
Proof.
  unfold risk_reward, py_div.
  destruct (Qcltb 0 entry) eqn:He; cbn [andb].
  2: { apply Qcltb_false in He. split_and!.
       - split; [done|]. intros (H & _). by apply Qcle_not_lt in He.
       - split; [|done]. intros _ (H & _). by apply Qcle_not_lt in He.
       - split; [by intros [? ?]|]. intros (H & _). by apply Qcle_not_lt in He. }
  destruct (Qcltb 0 sl) eqn:Hs; cbn [andb].
  2: { apply Qcltb_false in Hs. split_and!.
       - split; [done|]. intros (_ & H & _). by apply Qcle_not_lt in Hs.
       - split; [|done]. intros _ (_ & H & _). by apply Qcle_not_lt in Hs.
       - split; [by intros [? ?]|]. intros (_ & H & _). by apply Qcle_not_lt in Hs. }
  destruct (Qcltb 0 tp) eqn:Ht; cbn [andb].
  2: { apply Qcltb_false in Ht. split_and!.
       - split; [done|]. intros (_ & _ & H & _). by apply Qcle_not_lt in Ht.
       - split; [|done]. intros _ (_ & _ & H). by apply Qcle_not_lt in Ht.
       - split; [by intros [? ?]|]. intros (_ & _ & H & _). by apply Qcle_not_lt in Ht. }
  apply Qcltb_true in He, Hs, Ht.
  destruct (Qceqb (entry - sl) 0) eqn:Hz; cbn [mbind result_bind].
  - apply Qceqb_true in Hz. apply (proj1 (Qcminus_eq_0 _ _)) in Hz. split_and!.
    + split; [intros _; by split_and! | done].
    + split; [discriminate|]. intros Hn. destruct Hn. by split_and!.
    + split; [by intros [? ?]|]. intros (_ & _ & _ & Hne). done.
  - apply Qceqb_false in Hz. rewrite Qcminus_eq_0 in Hz. split_and!.
    + split; [discriminate|]. intros (_ & _ & _ & Heq). done.
    + split; [discriminate|]. intros Hn. destruct Hn. by split_and!.
    + split; [intros _; by split_and! | intros _; by eexists].
Qed.

End RiskMore.

(** ** Trade Log Store: undecodable files, replacing saves, two appends *)

Section TradeLogMore.

Import TradeLog.

Variable json_dumps : list Trade → string.
Variable json_loads : string → result (list Trade).

(** When the stored file does not decode, "Trade speichern" raises the
    decoder's error before anything is written: the file is left as it
    was, whatever the operating system would have done to the write. *)
Theorem speichern_on_undecodable_file (fault : io_fault) (fs : filesystem)
    (e : exn) (coin_name t_type : string) (amt tprice : Qc) :
  load_trades json_loads fs = Raise e →
  trade_speichern json_dumps json_loads fault coin_name t_type amt tprice fs
    = (fs, Raise e).
Proof. intros Hload. unfold trade_speichern. by rewrite Hload. Qed.

(** A successful save replaces the file as a whole: afterwards the log
    loads as exactly the saved trades, whatever the file held before
    (nothing, another log, or text that did not decode), and the stored
    text does not depend on the previous content. *)
Theorem save_replaces_file (trades : list Trade) (fs : filesystem) :
  json_loads (json_dumps trades) = Ok trades →
  ∃ fs' : filesystem,
    save_trades json_dumps NoFault trades fs = (fs', Ok tt) ∧
    load_trades json_loads fs' = Ok trades ∧
    ∀ other : filesystem,
      save_trades json_dumps NoFault trades other = (fs', Ok tt).
Proof.
  intros Hround. exists (FS (Some (json_dumps trades))). split_and!.
  - done.
  - unfold load_trades. simpl. exact Hround.
  - done.
Qed.

(** Two trades saved one after the other are both in the log, after
    the old entries and in the order they were saved. *)
Theorem two_appends (fs : filesystem) (old : list Trade) (t1 t2 : Trade) :
  load_trades json_loads fs = Ok old →
  json_loads (json_dumps (old ++ [t1])) = Ok (old ++ [t1]) →
  json_loads (json_dumps (old ++ [t1; t2])) = Ok (old ++ [t1; t2]) →
  ∃ fs1 fs2 : filesystem,
    trade_speichern json_dumps json_loads NoFault
      (coin t1) (type t1) (amount t1) (price t1) fs = (fs1, Ok tt) ∧
    trade_speichern json_dumps json_loads NoFault
      (coin t2) (type t2) (amount t2) (price t2) fs1 = (fs2, Ok tt) ∧
    load_trades json_loads fs2 = Ok (old ++ [t1; t2]).
Proof.
  intros Hold H1 H2. destruct t1 as [c1 y1 a1 p1], t2 as [c2 y2 a2 p2].
  cbn [coin type amount price].
  exists (FS (Some (json_dumps (old ++ [MkTrade c1 y1 a1 p1])))),
         (FS (Some (json_dumps (old ++ [MkTrade c1 y1 a1 p1; MkTrade c2 y2 a2 p2])))).
  split_and!.
  - unfold trade_speichern. by rewrite Hold.
  - unfold trade_speichern, load_trades. cbn [data_file]. rewrite H1.
    cbn [save_trades]. by rewrite <- app_assoc.
  - unfold load_trades. cbn [data_file]. exact H2.
Qed.

End TradeLogMore.

Section TradeLogMoreExamples.

Import TradeLog.

Lemma speichern_on_undecodable_file_witness :
  trade_speichern sexp_dumps sexp_loads NoFault
    "Ethereum" "SELL" (QcZ 2) (QcZ 50) broken_file
  = (broken_file, Raise JSONDecodeError).
Proof.
  apply (speichern_on_undecodable_file sexp_dumps sexp_loads).
  vm_compute. reflexivity.
Defined.

Lemma save_replaces_file_witness :
  ∃ fs' : filesystem,
    save_trades sexp_dumps NoFault [trade_1; trade_2] broken_file = (fs', Ok tt) ∧
    load_trades sexp_loads fs' = Ok [trade_1; trade_2] ∧
    ∀ other : filesystem,
      save_trades sexp_dumps NoFault [trade_1; trade_2] other = (fs', Ok tt).
Proof.
  apply (save_replaces_file sexp_dumps sexp_loads). vm_compute. reflexivity.
Defined.

Lemma two_appends_witness :
  ∃ fs1 fs2 : filesystem,
    trade_speichern sexp_dumps sexp_loads NoFault
      (coin trade_1) (type trade_1) (amount trade_1) (price trade_1) (FS None)
      = (fs1, Ok tt) ∧
    trade_speichern sexp_dumps sexp_loads NoFault
      (coin trade_2) (type trade_2) (amount trade_2) (price trade_2) fs1
      = (fs2, Ok tt) ∧
    load_trades sexp_loads fs2 = Ok ([] ++ [trade_1; trade_2]).
Proof.
  apply (two_appends sexp_dumps sexp_loads (FS None) []).
  - reflexivity.
  - vm_compute. reflexivity.
  - vm_compute. reflexivity.
Defined.

End TradeLogMoreExamples.

(** ** The signal on a steadily rising market *)

Section RisingMarket.

Local Open Scope nat_scope.













End RisingMarket.

(** ** The signal on a steadily falling market *)

Section FallingMarket.

Local Open Scope nat_scope.













End FallingMarket.

(** * Properties of the binary64 embedding *)

(** ** Signs and special values of the binary64 operations *)

Section Binary64Arithmetic.

Import Binary64.

Lemma iter_pos_invariant {A} (P : A → Prop) (f : A → A) :
  (∀ x, P x → P (f x)) → ∀ p x, P x → P (SpecFloat.iter_pos f p x).
Proof.
  intros Hf p. induction p as [p IH|p IH|]; intros x Hx; simpl; auto.
Qed.

Lemma shr_1_nonneg mrs : (0 ≤ shr_m mrs)%Z → (0 ≤ shr_m (shr_1 mrs))%Z.
Proof.
  destruct mrs as [m r s]. simpl. intros Hm.
  destruct m as [|[p|p|]|p]; simpl; lia.
Qed.

Lemma shr_fexp_nonneg m e l :
  (0 ≤ m)%Z → (0 ≤ shr_m (shr_fexp prec emax m e l).1)%Z.
Proof.
  intros Hm. unfold shr_fexp, shr.
  assert (H0 : (0 ≤ shr_m (shr_record_of_loc m l))%Z)
    by (destruct l as [|[]]; simpl; lia).
  destruct (_ - e)%Z; simpl; try done.
  by apply (iter_pos_invariant (λ mrs, 0 ≤ shr_m mrs)%Z), H0; apply shr_1_nonneg.
Qed.

Lemma round_nearest_even_nonneg m l :
  (0 ≤ m)%Z → (0 ≤ round_nearest_even m l)%Z.
Proof.
  intros Hm. destruct l as [|[]]; simpl; try lia.
  destruct (Z.even m); lia.
Qed.

(** Rounding keeps the sign it is given, also when the result is a zero
    or an infinity. *)
Lemma binary_round_aux_sign s m e l :
  (0 ≤ m)%Z → has_sign s (binary_round_aux prec emax s m e l).
Proof.
  intros Hm. unfold binary_round_aux.
  pose proof (shr_fexp_nonneg m e l Hm) as H1.
  destruct (shr_fexp prec emax m e l) as [mrs' e'].
  pose proof (shr_fexp_nonneg
    (round_nearest_even (shr_m mrs') (loc_of_shr_record mrs')) e' loc_Exact
    (round_nearest_even_nonneg _ _ H1)) as H2.
  destruct (shr_fexp prec emax _ e' loc_Exact) as [mrs'' e'']. simpl in H2.
  destruct (shr_m mrs''); [done| |lia].
  by destruct (_ <=? _)%Z.
Qed.

Lemma SFleb_zero_sign x :
  has_sign false x → SFleb (S754_zero false) x = true.
Proof. destruct x as [s|s| |s m e]; simpl; intros H; try done; by subst. Qed.

Lemma Prim2SF_0 : Prim2SF 0 = S754_zero false.
Proof. reflexivity. Qed.

Lemma Prim2SF_infinity : Prim2SF infinity = S754_infinity false.
Proof. reflexivity. Qed.

Lemma Prim2SF_nan : Prim2SF nan = S754_nan.
Proof. reflexivity. Qed.

Lemma nonneg_cases (a : float) :
  nonneg a →
  (∃ s, Prim2SF a = S754_zero s) ∨ Prim2SF a = S754_infinity false ∨
  ∃ m e, Prim2SF a = S754_finite false m e.
Proof.
  unfold nonneg. rewrite leb_spec, Prim2SF_0.
  destruct (Prim2SF a) as [s|[]| |[] m e]; simpl; try done; eauto.
Qed.

Lemma positive_finite_cases (p : float) :
  positive_finite p = true → ∃ m e, Prim2SF p = S754_finite false m e.
Proof.
  unfold positive_finite. intros [H0 Hinf]%andb_true_iff.
  rewrite ltb_spec, Prim2SF_0 in H0.
  rewrite ltb_spec, Prim2SF_infinity in Hinf.
  destruct (Prim2SF p) as [s|[]| |[] m e]; simpl in *; try done; eauto.
Qed.

Lemma zero_cases (x : float) :
  (x =? 0)%float = true → ∃ s, Prim2SF x = S754_zero s.
Proof.
  rewrite FloatAxioms.eqb_spec, Prim2SF_0.
  destruct (Prim2SF x) as [s|[]| |[] m e]; simpl; try done; eauto.
Qed.

Lemma positive_cases (x : float) :
  (0 <? x)%float = true →
  Prim2SF x = S754_infinity false ∨ ∃ m e, Prim2SF x = S754_finite false m e.
Proof.
  rewrite ltb_spec, Prim2SF_0.
  destruct (Prim2SF x) as [s|[]| |[] m e]; simpl; try done; eauto.
Qed.

(** A non-negative value divided or multiplied by a positive number is
    non-negative: the quotient and the product may be rounded to zero or
    to plus infinity, but not to a negative value or to NaN. *)
Lemma div_nonneg (a p : float) :
  nonneg a → positive_finite p = true → nonneg (a / p)%float.
Proof.
  intros Ha Hp. apply nonneg_cases in Ha. apply positive_finite_cases in Hp.
  destruct Hp as (mp & ep & Hp).
  unfold nonneg. rewrite leb_spec, Prim2SF_0, div_spec, Hp. unfold SF64div.
  destruct Ha as [[s ->]|[->|(m & e & ->)]]; simpl; try done.
  unfold SFdiv_core_binary.
  destruct (Z.div_eucl _ _) as [q r] eqn:Hqr.
  apply SFleb_zero_sign, binary_round_aux_sign.
  match type of Hqr with Z.div_eucl ?n ?d = _ =>
    pose proof (Z.div_eucl_eq n d ltac:(done)) as Heq;
    pose proof (Z.mod_pos_bound n d ltac:(done)) as Hmod;
    assert (Hn : (0 ≤ n)%Z)
  end.
  { destruct (_ - _ - _)%Z; try lia. apply Z.shiftl_nonneg. lia. }
  unfold Z.modulo in Hmod. rewrite Hqr in Heq, Hmod. nia.
Qed.

Lemma mul_nonneg (a p : float) :
  nonneg a → positive_finite p = true → nonneg (a * p)%float.
Proof.
  intros Ha Hp. apply nonneg_cases in Ha. apply positive_finite_cases in Hp.
  destruct Hp as (mp & ep & Hp).
  unfold nonneg. rewrite leb_spec, Prim2SF_0, mul_spec, Hp. unfold SF64mul.
  destruct Ha as [[s ->]|[->|(m & e & ->)]]; simpl; try done.
  apply SFleb_zero_sign, binary_round_aux_sign. lia.
Qed.

(** NaN goes through every operation of the RSI formula. *)
Lemma float_is_nan (x : float) : Prim2SF x = S754_nan → x = nan.
Proof. intros H. by rewrite <- (SF2Prim_Prim2SF x), H. Qed.

Lemma div_nan_l (y : float) : (nan / y)%float = nan.
Proof. apply float_is_nan. by rewrite div_spec, Prim2SF_nan. Qed.

Lemma add_nan_r (x : float) : (x + nan)%float = nan.
Proof.
  apply float_is_nan. rewrite add_spec, Prim2SF_nan.
  unfold SF64add. by destruct (Prim2SF x).
Qed.

Lemma div_nan_r (x : float) : (x / nan)%float = nan.
Proof.
  apply float_is_nan. rewrite div_spec, Prim2SF_nan.
  unfold SF64div. by destruct (Prim2SF x).
Qed.

Lemma sub_nan_r (x : float) : (x - nan)%float = nan.
Proof.
  apply float_is_nan. rewrite sub_spec, Prim2SF_nan.
  unfold SF64sub. by destruct (Prim2SF x).
Qed.

Lemma b64_rsi_point_nan_gain (l : float) : rsi_point nan l = nan.
Proof.
  unfold rsi_point. by rewrite div_nan_l, add_nan_r, div_nan_r, sub_nan_r.
Qed.

(** Zero loss with a positive gain: the quotient is an infinity,
    [100 / (1 + rs)] a zero, and the result exactly 100. *)
Lemma b64_rsi_point_zero_loss (g l : float) :
  (0 <? g)%float = true → (l =? 0)%float = true → rsi_point g l = 100%float.
Proof.
  intros Hg Hl. apply positive_cases in Hg. apply zero_cases in Hl as [s Hl].
  apply Prim2SF_inj. unfold rsi_point.
  rewrite sub_spec, div_spec, add_spec, div_spec, Hl.
  destruct Hg as [->|(m & e & ->)]; by destruct s.
Qed.

(** Zero loss and zero gain: the quotient is 0/0. *)
Lemma b64_rsi_point_zero_zero (g l : float) :
  (g =? 0)%float = true → (l =? 0)%float = true → rsi_point g l = nan.
Proof.
  intros Hg Hl. apply zero_cases in Hg as [t Hg]. apply zero_cases in Hl as [s Hl].
  apply float_is_nan. unfold rsi_point.
  rewrite sub_spec, div_spec, add_spec, div_spec, Hl, Hg. done.
Qed.

End Binary64Arithmetic.

(** ** The rolling kernel before its window is full *)

Section Binary64Kernel.

Import Binary64.
Local Open Scope nat_scope.
Implicit Types (values : Series) (st : roll_state) (w i n : nat).

Lemma b64_length_roll_loop values w minp idx st :
  length (roll_loop values w minp idx st) = length idx.
Proof.
  revert st. induction idx as [|i idx IH]; intros st; simpl; [done|].
  by rewrite IH.
Qed.

Lemma length_prep_values values : length (prep_values values) = length values.
Proof. unfold prep_values. by rewrite length_fmap. Qed.

Lemma b64_length_rolling_mean values w :
  length (rolling_mean w values) = length values.
Proof.
  unfold rolling_mean.
  by rewrite b64_length_roll_loop, length_seq, length_prep_values.
Qed.

Lemma roll_loop_prefix values w minp idx idx' st i :
  i < length idx →
  roll_loop values w minp (idx ++ idx') st !! i
  = roll_loop values w minp idx st !! i.
Proof.
  revert st i. induction idx as [|j idx IH]; intros st i Hi; simpl in *; [lia|].
  destruct i as [|i]; [done|]. simpl. apply IH. lia.
Qed.

(** While the window has not yet moved, the state is the accumulation
    of all values seen so far. *)
Lemma roll_loop_warmup values w minp n a st :
  a + n ≤ w →
  a = 0 ∨ st = foldl add_mean (roll_setup (default nan (values !! 0)))
                 (take a values) →
  roll_loop values w minp (seq a n) st
  = (λ i, calc_mean minp
            (foldl add_mean (roll_setup (default nan (values !! 0)))
               (take (S i) values))) <$> seq a n.
Proof.
  revert a st. induction n as [|n IH]; intros a st Hle Hst; simpl; [done|].
  assert (Hstep : roll_step values w st a
                  = foldl add_mean (roll_setup (default nan (values !! 0)))
                      (take (S a) values)).
  { unfold roll_step, win_start, win_end, slice.
    replace (a + 1 - w) with 0 by lia.
    destruct a as [|a]; simpl.
    - by rewrite drop_0.
    - replace (a - 0 + 1 <=? 0) with false
        by (symmetry; apply Nat.leb_gt; lia).
      destruct Hst as [Ha0 | ->]; [done|].
      rewrite take_0, drop_nil. simpl.
      rewrite <- foldl_app. f_equal.
      replace (S (a + 1)) with (S (S a)) by lia.
      etransitivity; [|apply (take_drop (S a))].
      f_equal; [rewrite take_take; f_equal; lia | f_equal; lia]. }
  rewrite Hstep. f_equal. apply IH; [lia|]. by right.
Qed.

Lemma roll_loop_warmup_lookup values w minp i :
  i < w → i < length values →
  roll_loop values w minp (seq 0 (length values)) (roll_setup nan) !! i
  = Some (calc_mean minp
            (foldl add_mean (roll_setup (default nan (values !! 0)))
               (take (S i) values))).
Proof.
  intros Hw Hi.
  replace (length values) with (S i + (length values - S i)) at 1 by lia.
  rewrite seq_app, roll_loop_prefix by (rewrite length_seq; lia).
  rewrite roll_loop_warmup by (auto; lia).
  by rewrite list_lookup_fmap, lookup_seq_lt by lia.
Qed.

Lemma nobs_add_mean st v : (nobs st ≤ nobs (add_mean st v) ≤ nobs st + 1)%Z.
Proof. unfold add_mean. destruct (v =? v)%float; simpl; lia. Qed.

Lemma nobs_foldl_add_mean l st :
  (nobs (foldl add_mean st l) ≤ nobs st + Z.of_nat (length l))%Z.
Proof.
  revert st. induction l as [|v l IH]; intros st; simpl; [lia|].
  pose proof (IH (add_mean st v)). pose proof (nobs_add_mean st v). lia.
Qed.

Lemma calc_mean_few minp st : (nobs st < minp)%Z → calc_mean minp st = nan.
Proof.
  intros Hlt. unfold calc_mean.
  replace (minp <=? nobs st)%Z with false; [done|].
  symmetry. apply Z.leb_gt. lia.
Qed.


(** A leading NaN (the first delta) is not counted: the window is full
    one index later. *)
Lemma b64_rolling_mean_warmup_nan values w i :
  i < w → i < S (length values) →
  rolling_mean w (nan :: values) !! i = Some nan.
Proof.
  intros Hw Hi. unfold rolling_mean.
  rewrite roll_loop_warmup_lookup
    by (rewrite ?length_prep_values; simpl; lia).
  f_equal. apply calc_mean_few.
  change (prep_values (nan :: values)) with (nan :: prep_values values).
  cbn [take foldl lookup list_lookup default].
  change (add_mean ?st nan) with st.
  match goal with |- (nobs (foldl add_mean ?st ?l) < _)%Z =>
    pose proof (nobs_foldl_add_mean l st) as Hn end.
  rewrite length_take, length_prep_values in Hn. cbn [nobs roll_setup] in Hn. lia.
Qed.

End Binary64Kernel.

(** ** The indicator columns on binary64 *)

Section Binary64Indicators.

Import Binary64.
Local Open Scope nat_scope.
Implicit Types (df : DataFrame) (data : list (Z * float)) (p : Series).

Lemma b64_getitem_setitem_ne df key key' s :
  key ≠ key' → getitem (setitem df key s) key' = getitem df key'.
Proof. intros Hne. unfold getitem, setitem. simpl. by rewrite lookup_insert_ne. Qed.

Lemma b64_getitem_setitem_eq df key s : getitem (setitem df key s) key = Ok s.
Proof. unfold getitem, setitem. simpl. by rewrite lookup_insert_eq. Qed.

Lemma b64_indicator_frame_eq data :
  indicator_frame data = Ok (with_indicators (snd <$> data) (chart_frame data)).
Proof.
  assert (Hp : getitem (chart_frame data) "price" = Ok (snd <$> data)).
  { unfold getitem, chart_frame. cbn [columns]. by rewrite lookup_insert_eq. }
  unfold indicator_frame, add_indicators.
  rewrite Hp. cbn [mbind result_bind].
  rewrite b64_getitem_setitem_ne, Hp by done. cbn [mbind result_bind].
  rewrite !b64_getitem_setitem_ne, Hp by done. cbn [mbind result_bind].
  rewrite !b64_getitem_setitem_ne, Hp by done. cbn [mbind result_bind].
  reflexivity.
Qed.

Lemma indicator_frame_columns data df :
  indicator_frame data = Ok df →
  nrows df = length data ∧
  getitem df "price" = Ok (snd <$> data) ∧
  getitem df "SMA20" = Ok (rolling_mean 20 (snd <$> data)) ∧
  getitem df "SMA50" = Ok (rolling_mean 50 (snd <$> data)) ∧
  getitem df "RSI" = Ok (rsi_series (snd <$> data)).
Proof.
  rewrite b64_indicator_frame_eq. intros [= <-]. unfold with_indicators.
  split_and!; [done|..];
    rewrite ?b64_getitem_setitem_ne by done;
    try apply b64_getitem_setitem_eq.
  unfold getitem, chart_frame. cbn [columns]. by rewrite lookup_insert_eq.
Qed.

Lemma b64_at_row_eval df key (s : Series) i x :
  getitem df key = Ok s → s !! i = Some x → at_row df key i = Ok x.
Proof.
  intros Hs Hx. unfold at_row. rewrite Hs. cbn [mbind result_bind].
  unfold iloc. by rewrite Hx.
Qed.






(** *** RSI *)

Lemma b64_length_diff p : length (diff p) = length p.
Proof.
  destruct p as [|x p]; [done|]. simpl. rewrite length_zip_with.
  simpl. lia.
Qed.

Lemma b64_length_avg_gain (delta : Series) :
  length (avg_gain delta) = length delta.
Proof.
  unfold avg_gain, clip_lower. by rewrite b64_length_rolling_mean, length_fmap.
Qed.

Lemma b64_length_avg_loss (delta : Series) :
  length (avg_loss delta) = length delta.
Proof.
  unfold avg_loss, clip_upper.
  by rewrite length_fmap, b64_length_rolling_mean, length_fmap.
Qed.

Lemma b64_length_rsi_series p : length (rsi_series p) = length p.
Proof.
  unfold rsi_series, rsi_of_rs.
  rewrite length_fmap, length_zip_with, b64_length_avg_gain,
    b64_length_avg_loss, b64_length_diff.
  lia.
Qed.

Lemma b64_rsi_series_lookup p i g l :
  avg_gain (diff p) !! i = Some g → avg_loss (diff p) !! i = Some l →
  rsi_series p !! i = Some (rsi_point g l).
Proof.
  intros Hg Hl. unfold rsi_series, rsi_of_rs.
  rewrite list_lookup_fmap, lookup_zip_with, Hg. simpl. by rewrite Hl.
Qed.

(** The first delta is NaN, so the gain average is NaN up to index 13. *)
Lemma avg_gain_warmup p i :
  i < 14 → i < length p → avg_gain (diff p) !! i = Some nan.
Proof.
  intros Hi Hlen. destruct p as [|x p]; [simpl in Hlen; lia|].
  unfold avg_gain, diff, clip_lower. rewrite fmap_cons.
  change (if (nan <? 0)%float then 0%float else nan) with nan.
  apply b64_rolling_mean_warmup_nan; [done|].
  rewrite length_fmap, length_zip_with. simpl in *. lia.
Qed.

(** C2 (as amended): the RSI column has the length of the series and is
    undefined (NaN) at every index below 14.  At every index the RSI is
    [100 - 100 / (1 + g / l)] in binary64 arithmetic, [g] and [l] being
    the rolling average gain and loss there, with no special case: where
    the average loss is zero and the average gain is positive the RSI is
    exactly 100 (through the infinite quotient), and where both are zero
    (a window of all-zero deltas) the RSI is NaN. *)
Theorem rsi_zero_loss_cases data df (i : nat) :
  indicator_frame data = Ok df → i < length data →
  ∃ (rsi : Series) (g l x : float),
    getitem df "RSI" = Ok rsi ∧
    length rsi = length data ∧
    avg_gain (diff (snd <$> data)) !! i = Some g ∧
    avg_loss (diff (snd <$> data)) !! i = Some l ∧
    rsi !! i = Some x ∧
    x = (100 - 100 / (1 + g / l))%float ∧
    ((0 <? g)%float = true → (l =? 0)%float = true → x = 100%float) ∧
    ((g =? 0)%float = true → (l =? 0)%float = true → x = nan) ∧
    (i < 14 → x = nan).
Proof.
  intros Hdf Hi.
  destruct (indicator_frame_columns _ _ Hdf) as (_ & _ & _ & _ & Hrsi).
  set (p := snd <$> data) in *.
  assert (Hp : length p = length data) by (unfold p; by rewrite length_fmap).
  destruct (lookup_lt_is_Some_2 (avg_gain (diff p)) i) as [g Hg];
    [rewrite b64_length_avg_gain, b64_length_diff; lia|].
  destruct (lookup_lt_is_Some_2 (avg_loss (diff p)) i) as [l Hl];
    [rewrite b64_length_avg_loss, b64_length_diff; lia|].
  exists (rsi_series p), g, l, (rsi_point g l).
  split_and!; try done.
  - by rewrite b64_length_rsi_series.
  - by apply b64_rsi_series_lookup.
  - apply b64_rsi_point_zero_loss.
  - apply b64_rsi_point_zero_zero.
  - intros H14. rewrite avg_gain_warmup in Hg by lia.
    injection Hg as <-. apply b64_rsi_point_nan_gain.
Qed.

Lemma rsi_zero_loss_cases_witness :
  ∃ (rsi : Series) (g l x : float),
    getitem (with_indicators (snd <$> rising_21) (chart_frame rising_21))
            "RSI" = Ok rsi ∧
    length rsi = length rising_21 ∧
    avg_gain (diff (snd <$> rising_21)) !! 20 = Some g ∧
    avg_loss (diff (snd <$> rising_21)) !! 20 = Some l ∧
    rsi !! 20 = Some x ∧
    x = (100 - 100 / (1 + g / l))%float ∧
    ((0 <? g)%float = true → (l =? 0)%float = true → x = 100%float) ∧
    ((g =? 0)%float = true → (l =? 0)%float = true → x = nan) ∧
    (20 < 14 → x = nan).
Proof.
  apply (rsi_zero_loss_cases rising_21 _ 20).
  - vm_compute. reflexivity.
  - vm_compute. lia.
Defined.

(** The two zero-loss cases occur.  On twenty-one rising prices the last
    window has a positive average gain and the average loss -0.0, and
    the RSI is 100; on fifteen equal prices both averages are zero at
    index 14 and the RSI is NaN. *)
Example b64_rsi_all_gains :
  avg_gain (diff (snd <$> rising_21)) !! 20 = Some 1%float ∧
  avg_loss (diff (snd <$> rising_21)) !! 20 = Some (-0)%float ∧
  (df ← indicator_frame rising_21; at_row df "RSI" 20) = Ok 100%float.
Proof. split_and!; vm_compute; reflexivity. Qed.

Example b64_rsi_flat_window :
  avg_gain (diff (snd <$> flat_15)) !! 14 = Some 0%float ∧
  avg_loss (diff (snd <$> flat_15)) !! 14 = Some (-0)%float ∧
  (df ← indicator_frame flat_15; at_row df "RSI" 14) = Ok nan.
Proof. split_and!; vm_compute; reflexivity. Qed.

End Binary64Indicators.

(** ** The backtest on binary64 *)

Section Binary64Backtest.

Import Binary64.
Local Open Scope nat_scope.
Implicit Types (df : DataFrame) (data : list (Z * float)) (st : portfolio).

(** One iteration keeps cash and holdings non-negative with one of them
    zero, when the price of the row is a positive number; the indicator
    values of the row do not matter. *)
Lemma backtest_step_invariant df st i (a b p : float) :
  at_row df "SMA20" i = Ok a → at_row df "SMA50" i = Ok b →
  at_row df "price" i = Ok p → positive_finite p = true →
  invariant st →
  ∃ st', backtest_step df st i = Ok st' ∧ invariant st'.
Proof.
  intros Ha Hb Hp Hpos (Hc & Hn & Hz).
  unfold backtest_step. rewrite Ha, Hb. cbn [mbind result_bind].
  destruct (_ && _).
  - rewrite Hp. cbn [mbind result_bind]. eexists; split; [done|].
    split_and!; cbn [cash coin_amt]; [done | by apply div_nonneg | by left].
  - destruct (_ && _).
    + rewrite Hp. cbn [mbind result_bind]. eexists; split; [done|].
      split_and!; cbn [cash coin_amt]; [by apply mul_nonneg | done | by right].
    + by exists st.
Qed.

Lemma lookup_price data i :
  i < length data → Forall (λ d, positive_finite d.2 = true) data →
  ∃ p, (snd <$> data) !! i = Some p ∧ positive_finite p = true.
Proof.
  intros Hi Hall. destruct (lookup_lt_is_Some_2 data i Hi) as [d Hd].
  exists d.2. split; [by rewrite list_lookup_fmap, Hd|].
  by apply (Forall_lookup_1 _ _ _ _ Hall Hd).
Qed.

(** C10 (as amended): with every price a positive number, after every
    number [k] of loop iterations the cash and the holdings are both
    non-negative (zero, a positive number or plus infinity, never NaN)
    and one of them is zero, and the final result is non-negative.  It
    is not asserted to be strictly positive. *)
Theorem backtest_state_nonnegative data df (k : nat) :
  indicator_frame data = Ok df →
  Forall (λ d, positive_finite d.2 = true) data →
  k ≤ length data - 50 →
  (∃ st : portfolio,
     for_each (backtest_step df) (seq 50 k) backtest_start = Ok st ∧
     (0 <=? cash st)%float = true ∧ (0 <=? coin_amt st)%float = true ∧
     ((cash st =? 0)%float = true ∨ (coin_amt st =? 0)%float = true)) ∧
  (∃ final : float, backtest df = Ok final ∧ (0 <=? final)%float = true).
Proof.
  intros Hdf Hall Hk.
  destruct (indicator_frame_columns _ _ Hdf) as (Hrows & Hprice & H20 & H50 & _).
  assert (Hstart : invariant backtest_start) by (split_and!; [done | done | by right]).
  assert (Hloop : ∀ n, n ≤ length data - 50 →
            ∃ st, for_each (backtest_step df) (seq 50 n) backtest_start = Ok st ∧
                  invariant st).
  { intros n Hn. apply for_each_invariant; [done|].
    intros st i Hin Hinv. apply elem_of_seq in Hin.
    assert (Hi : i < length data) by lia.
    destruct (lookup_price _ _ Hi Hall) as (p & Hp & Hpos).
    destruct (lookup_lt_is_Some_2 (rolling_mean 20 (snd <$> data)) i) as [a Ha];
      [rewrite b64_length_rolling_mean, length_fmap; lia|].
    destruct (lookup_lt_is_Some_2 (rolling_mean 50 (snd <$> data)) i) as [b Hb];
      [rewrite b64_length_rolling_mean, length_fmap; lia|].
    eapply backtest_step_invariant; eauto using b64_at_row_eval. }
  split; [by apply Hloop|].
  destruct (Hloop (length data - 50)) as (st & Hst & Hc & Hn & Hz); [done|].
  unfold backtest, backtest_loop. rewrite Hrows, Hst. cbn [mbind result_bind].
  unfold backtest_final. destruct (0 <? cash st)%float eqn:Hcash.
  - by exists (cash st).
  - destruct (decide (length data = 0)) as [Hempty|Hne].
    + rewrite Hempty in Hst. simpl in Hst. injection Hst as <-. done.
    + destruct (lookup_price data (length data - 1)) as (p & Hp & Hpos);
        [lia | done |].
      unfold last_of, iloc_last. rewrite Hprice. cbn [mbind result_bind].
      rewrite length_fmap, Hp. eexists; split; [done|].
      by apply mul_nonneg.
Qed.

Lemma backtest_state_nonnegative_witness :
  (∃ st : portfolio,
     for_each (backtest_step (with_indicators (snd <$> rise_fall_120)
                                (chart_frame rise_fall_120)))
              (seq 50 30) backtest_start = Ok st ∧
     (0 <=? cash st)%float = true ∧ (0 <=? coin_amt st)%float = true ∧
     ((cash st =? 0)%float = true ∨ (coin_amt st =? 0)%float = true)) ∧
  (∃ final : float,
     backtest (with_indicators (snd <$> rise_fall_120) (chart_frame rise_fall_120))
       = Ok final ∧ (0 <=? final)%float = true).
Proof.
  apply (backtest_state_nonnegative rise_fall_120 _ 30).
  - vm_compute. reflexivity.
  - apply Forall_forall. intros d Hd. revert d Hd. apply Forall_forall.
    vm_compute. repeat constructor.
  - vm_compute. lia.
Defined.

(** C10, the claim as stated fails: every price of the series is a
    positive number, the backtest buys at row 50 at the price 2^996 and
    sells at row 70 at the price 2^-100; the product of the holdings
    1000 / 2^996 and that price is below the smallest double and is
    rounded to 0.0.  The final result is 0.0, not a positive number. *)
Lemma backtest_result_underflows :
  Forall (λ d, positive_finite d.2 = true) spike_80 ∧
  (∃ df : DataFrame,
     indicator_frame spike_80 = Ok df ∧
     for_each (backtest_step df) (seq 50 1) backtest_start
       = Ok (Portfolio 0 (1000 / 0x1p+996)) ∧
     for_each (backtest_step df) (seq 50 21) backtest_start
       = Ok (Portfolio 0 0) ∧
     backtest df = Ok 0%float) ∧
  (0 <? 0)%float = false.
Proof.
  split_and!.
  - apply Forall_forall. intros d Hd. revert d Hd. apply Forall_forall.
    vm_compute. repeat constructor.
  - eexists. split_and!; vm_compute; reflexivity.
  - reflexivity.
Qed.

End Binary64Backtest.
